(** * A Rocq model of the chat API handlers and of the deployment guard

    The development embeds two source files of the repository:

    - [function_app.py]: the handlers [chat_api] and [health_check];
    - [build.py]: [run_command], [az_deploy] and the [az-deploy] branch of
      [main]; then the tasks [setup], [test], [coverage], [lint],
      [format_code], [func_start] and [run_all], the whole of [main], and
      the choice of the files that [az_package] archives.

    Python objects that the handlers touch are modelled by the inductive type
    [pyval]; exceptions, log records and the clock are explicit.  The parts of
    the Python runtime that the repository only calls (the rendering of floats
    and of quoted strings, [json.dumps] as text for the log lines) are the
    fields of the class [PyRuntime]. *)

From Stdlib Require Import String Ascii List ZArith Bool Lia.
From Stdlib Require Import DecimalString.
From Stdlib Require Import PrimFloat.
Import ListNotations.

Set Warnings "-register-all".

Local Open Scope string_scope.
Local Open Scope Z_scope.

(** ** Python values *)

Module Py.

(** The objects [json.loads] can build, which are the only ones the handlers
    see.  A [dict] keeps its items in insertion order; [json.loads] never
    builds one with a repeated key. *)
Inductive pyval : Type :=
| PNone
| PBool (b : bool)
| PInt (n : Z)
| PFloat (x : float)
| PStr (s : string)
| PList (items : list pyval)
| PDict (items : list (string * pyval)).

(** [bool(v)]: the truth value that [not v] and [a or b] consult. *)
Definition truthy (v : pyval) : bool :=
  match v with
  | PNone => false
  | PBool b => b
  | PInt n => negb (n =? 0)
  | PFloat x => negb (PrimFloat.eqb x PrimFloat.zero)
  | PStr s => negb (String.eqb s "")
  | PList l => match l with [] => false | _ :: _ => true end
  | PDict l => match l with [] => false | _ :: _ => true end
  end.

(** Item lookup in a [dict]. *)
Fixpoint dict_lookup (items : list (string * pyval)) (key : string)
  : option pyval :=
  match items with
  | [] => None
  | (k, v) :: rest => if String.eqb k key then Some v else dict_lookup rest key
  end.

Definition dict_keys (items : list (string * pyval)) : list string :=
  map fst items.

(** [d.get(key, default)] on the items of a [dict]. *)
Definition dict_get (items : list (string * pyval)) (key : string)
           (default : pyval) : pyval :=
  match dict_lookup items key with
  | Some v => v
  | None => default
  end.

(** The runtime functions the repository relies on without defining them. *)
Class PyRuntime : Type := {
  (** [repr] of a [float], for instance [1.5], [1e+22], [nan]. *)
  float_repr : float -> string;
  (** [repr] of a [str]: quoted and escaped. *)
  str_repr : string -> string;
  (** [json.dumps(v, indent=2)], the text put in the log lines. *)
  json_dumps_indent2 : pyval -> string
}.

(** [str(n)] for an [int]. *)
Definition int_str (n : Z) : string :=
  NilZero.string_of_int (Z.to_int n).

(** [", ".join(parts)]. *)
Fixpoint join_comma (parts : list string) : string :=
  match parts with
  | [] => ""
  | [p] => p
  | p :: rest => p ++ ", " ++ join_comma rest
  end.

Section Rendering.
Context {rt : PyRuntime}.

(** [repr(v)]. *)
Fixpoint py_repr (v : pyval) : string :=
  match v with
  | PNone => "None"
  | PBool true => "True"
  | PBool false => "False"
  | PInt n => int_str n
  | PFloat x => float_repr x
  | PStr s => str_repr s
  | PList l => "[" ++ join_comma (map py_repr l) ++ "]"
  | PDict l =>
      "{" ++ join_comma
               (map (fun kv => str_repr (fst kv) ++ ": " ++ py_repr (snd kv)) l)
          ++ "}"
  end.

(** [str(v)], which is also [format(v, "")], the text an f-string
    substitutes for [{v}].  Only [str] differs from [repr]. *)
Definition py_str (v : pyval) : string :=
  match v with
  | PStr s => s
  | _ => py_repr v
  end.
End Rendering.

End Py.

(** ** The HTTP handlers of [function_app.py] *)

Module FunctionApp.
Import Py.

(** *** Exceptions *)

(** The classes of [Exception] that reading and handling a request raises.
    [JSONDecodeError] and [UnicodeDecodeError] are subclasses of
    [ValueError].  What is not an [Exception] ([KeyboardInterrupt],
    [SystemExit]) does not come from the request and is left out. *)
Inductive exn_class : Type :=
| ValueError
| JSONDecodeError
| UnicodeDecodeError
| AttributeError
| TypeError
| RecursionError
| MemoryError
| RuntimeError.

(** An exception object; [exn_msg] is what [str(e)] returns. *)
Record exn : Type := Exn { exn_cls : exn_class; exn_msg : string }.

(** [isinstance(e, ValueError)], the test of [except ValueError]. *)
Definition is_ValueError (e : exn) : bool :=
  match exn_cls e with
  | ValueError | JSONDecodeError | UnicodeDecodeError => true
  | _ => false
  end.

(** *** Requests, responses and the clock *)

(** [func.HttpRequest] as the handlers read it.  The field [get_json] is the
    outcome of the call [req.get_json()] on the request's body: the parsed
    value, or the exception the parser raised. *)
Record HttpRequest : Type := {
  method : string;
  url : string;
  headers : list (string * string);
  get_json : exn + pyval
}.

(** [func.HttpResponse].  [body] holds the object the handler passes to
    [json.dumps]; a caller reads it back with [json.loads]. *)
Record HttpResponse : Type := {
  body : pyval;
  status_code : Z;
  mimetype : string
}.

(** A field of a response's JSON body. *)
Definition body_field (r : HttpResponse) (key : string) : option pyval :=
  match body r with
  | PDict items => dict_lookup items key
  | _ => None
  end.

(** The names of the fields of a response's JSON body, in order. *)
Definition body_fields (r : HttpResponse) : option (list string) :=
  match body r with
  | PDict items => Some (dict_keys items)
  | _ => None
  end.

(** A naive [datetime], the value of [datetime.utcnow()]. *)
Record datetime : Type := {
  year : nat; month : nat; day : nat;
  hour : nat; minute : nat; second : nat;
  microsecond : nat
}.

Fixpoint zeros (n : nat) : string :=
  match n with
  | O => ""
  | S k => "0" ++ zeros k
  end.

(** [n] in decimal, zero-padded on the left to [width] digits. *)
Definition pad (width n : nat) : string :=
  let digits := NilZero.string_of_uint (Nat.to_uint n) in
  zeros (width - String.length digits) ++ digits.

(** [datetime.isoformat()]: the microseconds are printed only when they are
    not zero, and a naive value has no offset suffix. *)
Definition isoformat (t : datetime) : string :=
  pad 4 (year t) ++ "-" ++ pad 2 (month t) ++ "-" ++ pad 2 (day t) ++ "T"
  ++ pad 2 (hour t) ++ ":" ++ pad 2 (minute t) ++ ":" ++ pad 2 (second t)
  ++ (if Nat.eqb (microsecond t) 0 then ""
      else "." ++ pad 6 (microsecond t)).

(** *** Logging and the handler monad *)

Inductive level : Type := INFO | WARNING | ERROR.

Record LogRecord : Type := {
  levelname : level;
  msg : string;
  exc_info : bool
}.

(** A handler computation appends to the log and either returns a value or
    raises; the records logged before a raise stay in the log. *)
Definition M (A : Type) : Type := list LogRecord -> (exn + A) * list LogRecord.

Definition ret {A} (a : A) : M A := fun log => (inr a, log).

Definition raise {A} (e : exn) : M A := fun log => (inl e, log).

Definition bind {A B} (c : M A) (k : A -> M B) : M B :=
  fun log =>
    match c log with
    | (inr a, log') => k a log'
    | (inl e, log') => (inl e, log')
    end.

(** [try: c  except Exception as e: handler e]. *)
Definition try_except {A} (c : M A) (handler : exn -> M A) : M A :=
  fun log =>
    match c log with
    | (inr a, log') => (inr a, log')
    | (inl e, log') => handler e log'
    end.

Definition emit (r : LogRecord) : M unit := fun log => (inr tt, (log ++ [r])%list).

Definition logging_info (text : string) : M unit :=
  emit {| levelname := INFO; msg := text; exc_info := false |}.

Definition logging_warning (text : string) : M unit :=
  emit {| levelname := WARNING; msg := text; exc_info := false |}.

Definition logging_error (text : string) (with_traceback : bool) : M unit :=
  emit {| levelname := ERROR; msg := text; exc_info := with_traceback |}.

Declare Scope handler_scope.
Delimit Scope handler_scope with handler.
Notation "x <- c ;; k" := (bind c (fun x => k))
  (at level 61, c at next level, right associativity) : handler_scope.
Notation "c ;; k" := (bind c (fun _ => k))
  (at level 61, right associativity) : handler_scope.
Local Open Scope handler_scope.

(** The result and the log of a whole run, from an empty log. *)
Definition run {A} (c : M A) : (exn + A) * list LogRecord := c [].

Definition result {A} (c : M A) : exn + A := fst (run c).

(** *** Attribute access *)

(** [type(v).__name__]. *)
Definition type_name (v : pyval) : string :=
  match v with
  | PNone => "NoneType"
  | PBool _ => "bool"
  | PInt _ => "int"
  | PFloat _ => "float"
  | PStr _ => "str"
  | PList _ => "list"
  | PDict _ => "dict"
  end.

(** [obj.get(key, default)]: only a [dict] has the method [get]; on any other
    object the attribute access raises [AttributeError]. *)
Definition py_get (obj : pyval) (key : string) (default : pyval) : M pyval :=
  match obj with
  | PDict items => ret (dict_get items key default)
  | _ =>
      raise (Exn AttributeError
               ("'" ++ type_name obj ++ "' object has no attribute 'get'"))
  end.

(** [dict(req.headers)]. *)
Definition headers_dict (req : HttpRequest) : pyval :=
  PDict (map (fun kv => (fst kv, PStr (snd kv))) (headers req)).

(** [req.get_json()]. *)
Definition call_get_json (req : HttpRequest) : M pyval :=
  match get_json req with
  | inl e => raise e
  | inr v => ret v
  end.

(** *** The handlers *)

(** The body of the error responses. *)
Definition error_body (text : string) (now : datetime) : pyval :=
  PDict [("error", PStr text); ("timestamp", PStr (isoformat now))].

Definition json_response (data : pyval) (code : Z) : HttpResponse :=
  {| body := data; status_code := code; mimetype := "application/json" |}.

Section Handlers.
Context {rt : PyRuntime}.

(** The [try] block of [chat_api], lines 22 to 59.  [now] is what
    [datetime.utcnow()] returns at the one place where this run calls it. *)
Definition chat_api_try (req : HttpRequest) (now : datetime)
  : M HttpResponse :=
  req_body <- call_get_json req ;;
  logging_info ("Request body: " ++ json_dumps_indent2 req_body) ;;
  message <- py_get req_body "message" (PStr "") ;;
  user_id <- py_get req_body "user_id" (PStr "anonymous") ;;
  if negb (truthy message) then
    logging_warning "Empty message received" ;;
    ret (json_response (error_body "Message field is required" now) 400)
  else
    logging_info ("User: " ++ py_str user_id ++ ", Message: " ++ py_str message) ;;
    let response_data :=
      PDict [("status", PStr "success");
             ("user_id", user_id);
             ("message_received", message);
             ("response", PStr ("Echo: " ++ py_str message));
             ("timestamp", PStr (isoformat now))] in
    logging_info ("Response: " ++ json_dumps_indent2 response_data) ;;
    ret (json_response response_data 200).

(** The two [except] clauses of [chat_api], lines 61 to 80, tried in
    order. *)
Definition chat_api_except (now : datetime) (e : exn) : M HttpResponse :=
  if is_ValueError e then
    logging_error ("Invalid JSON in request: " ++ exn_msg e) false ;;
    ret (json_response (error_body "Invalid JSON format" now) 400)
  else
    logging_error ("Error processing request: " ++ exn_msg e) true ;;
    ret (json_response (error_body "Internal server error" now) 500).

(** [chat_api], the handler of [POST /chat]. *)
Definition chat_api (req : HttpRequest) (now : datetime) : M HttpResponse :=
  logging_info "Chat API endpoint triggered" ;;
  logging_info ("Request method: " ++ method req) ;;
  logging_info ("Request URL: " ++ url req) ;;
  logging_info ("Headers: " ++ py_str (headers_dict req)) ;;
  try_except (chat_api_try req now) (chat_api_except now).

(** [health_check], the handler of [GET /health]. *)
Definition health_check (req : HttpRequest) (now : datetime)
  : M HttpResponse :=
  logging_info "Health check endpoint triggered" ;;
  ret (json_response
         (PDict [("status", PStr "healthy");
                 ("timestamp", PStr (isoformat now))])
         200).

(** What the lemmas below show [chat_api] to return on a body that parses to
    a [dict]: the echo when the message is truthy, the 400 answer
    otherwise. *)
Definition answer_to_dict (now : datetime) (items : list (string * pyval))
  : HttpResponse :=
  let message := dict_get items "message" (PStr "") in
  let user_id := dict_get items "user_id" (PStr "anonymous") in
  if truthy message then
    json_response
      (PDict [("status", PStr "success");
              ("user_id", user_id);
              ("message_received", message);
              ("response", PStr ("Echo: " ++ py_str message));
              ("timestamp", PStr (isoformat now))])
      200
  else json_response (error_body "Message field is required" now) 400.

End Handlers.

(** *** Text tests used by the repository's tests *)

(** [s.lower()] on ASCII text. *)
Definition lower_ascii (c : ascii) : ascii :=
  let n := nat_of_ascii c in
  if (Nat.leb 65 n && Nat.leb n 90)%bool then ascii_of_nat (n + 32) else c.

Fixpoint lower (s : string) : string :=
  match s with
  | EmptyString => EmptyString
  | String c rest => String (lower_ascii c) (lower rest)
  end.

(** [sub in s]. *)
Fixpoint str_in (sub s : string) : bool :=
  if String.prefix sub s then true
  else match s with
       | EmptyString => false
       | String _ rest => str_in sub rest
       end.

End FunctionApp.

(** ** The deployment task of [build.py] *)

Module Build.

(** What a run of the script does to the outside world, in order. *)
Inductive stream : Type := Stdout | Stderr.

Inductive event : Type :=
| Print (to : stream) (text : string)
  (** one call of [print], without the final newline *)
| Package
  (** the body of [az_package]: installs the dependencies and writes
      [function-app.zip] *)
| Subprocess (cmd : list string).
  (** [subprocess.run(cmd)] *)

(** How a task ends: it returns, or [sys.exit(code)] ends the process. *)
Inductive outcome (A : Type) : Type :=
| Returned (a : A)
| SysExit (code : Z).
Arguments Returned {A} a.
Arguments SysExit {A} code.

(** The environment of a run: [os.environ], the return code of each
    subprocess, and how [az_package] ends.  Every command is taken to
    start. *)
Record Host : Type := {
  environ : string -> option string;
  returncode : list string -> Z;
  az_package_outcome : outcome unit
}.

Definition Proc (A : Type) : Type := list event -> outcome A * list event.

Definition ret {A} (a : A) : Proc A := fun tr => (Returned a, tr).

Definition bind {A B} (c : Proc A) (k : A -> Proc B) : Proc B :=
  fun tr =>
    match c tr with
    | (Returned a, tr') => k a tr'
    | (SysExit code, tr') => (SysExit code, tr')
    end.

Definition sys_exit {A} (code : Z) : Proc A := fun tr => (SysExit code, tr).

Definition perform (e : event) : Proc unit :=
  fun tr => (Returned tt, (tr ++ [e])%list).

Declare Scope proc_scope.
Delimit Scope proc_scope with proc.
Notation "x <- c ;; k" := (bind c (fun x => k))
  (at level 61, c at next level, right associativity) : proc_scope.
Notation "c ;; k" := (bind c (fun _ => k))
  (at level 61, right associativity) : proc_scope.
Local Open Scope proc_scope.

Definition run {A} (c : Proc A) : outcome A * list event := c [].

(** The class [Colors]. *)
Definition ESC : string := String (ascii_of_nat 27) "".
Definition BLUE : string := ESC ++ "[94m".
Definition GREEN : string := ESC ++ "[92m".
Definition YELLOW : string := ESC ++ "[93m".
Definition RED : string := ESC ++ "[91m".
Definition ENDC : string := ESC ++ "[0m".
Definition BOLD : string := ESC ++ "[1m".

Definition newline : string := String (ascii_of_nat 10) "".

(** ["=" * n]. *)
Fixpoint rule (n : nat) : string :=
  match n with
  | O => ""
  | S k => "=" ++ rule k
  end.

Definition print_header (message : string) : Proc unit :=
  perform (Print Stdout (newline ++ BLUE ++ BOLD ++ message ++ ENDC)) ;;
  perform (Print Stdout (rule (String.length message))).

Definition print_success (message : string) : Proc unit :=
  perform (Print Stdout (GREEN ++ "✅ " ++ message ++ ENDC)).

Definition print_error (message : string) : Proc unit :=
  perform (Print Stderr (RED ++ "❌ " ++ message ++ ENDC)).

Definition print_info (message : string) : Proc unit :=
  perform (Print Stdout (BLUE ++ "ℹ️  " ++ message ++ ENDC)).

(** [run_command(cmd)] with [check=True]: a return code other than zero makes
    [subprocess.run] raise [CalledProcessError], which is answered with
    [sys.exit] of that code. *)
Definition run_command (host : Host) (cmd : list string) : Proc unit :=
  perform (Subprocess cmd) ;;
  let rc := returncode host cmd in
  if rc =? 0 then ret tt
  else
    print_error ("Command failed with exit code " ++ Py.int_str rc) ;;
    sys_exit rc.

(** [az_package()], kept as one step whose end the host decides. *)
Definition az_package (host : Host) : Proc unit :=
  perform Package ;;
  fun tr => (az_package_outcome host, tr).

Definition usage : string :=
  "Usage: python build.py az-deploy --function-app <name> --resource-group <group>".

(** [az_deploy(function_app_name, resource_group)], lines 292 to 320. *)
Definition az_deploy (host : Host) (function_app_name resource_group : string)
  : Proc unit :=
  print_header "Deploying to Azure Functions..." ;;
  (if (String.eqb function_app_name "" ||
       String.eqb function_app_name "your-function-app-name")%bool
   then
     print_error "FUNCTION_APP_NAME not set" ;;
     print_info usage ;;
     sys_exit 1
   else ret tt) ;;
  (if (String.eqb resource_group "" ||
       String.eqb resource_group "your-resource-group")%bool
   then
     print_error "RESOURCE_GROUP not set" ;;
     print_info usage ;;
     sys_exit 1
   else ret tt) ;;
  az_package host ;;
  print_info ("Deploying to " ++ function_app_name ++ " in "
              ++ resource_group ++ "...") ;;
  run_command host
    ["az"; "functionapp"; "deployment"; "source"; "config-zip";
     "--resource-group"; resource_group;
     "--name"; function_app_name;
     "--src"; "function-app.zip";
     "--build-remote"; "true"] ;;
  print_success "Deployment complete!".

(** The options [argparse] hands to [main]; an option that was not given is
    [None]. *)
Record Args : Type := {
  function_app : option string;
  resource_group : option string
}.

(** [opt or os.environ.get(name, default)]. *)
Definition or_environ (host : Host) (opt : option string)
           (name default : string) : string :=
  match opt with
  | Some s => if String.eqb s "" then
                match environ host name with Some v => v | None => default end
              else s
  | None => match environ host name with Some v => v | None => default end
  end.

(** The branch of [main] for the command [az-deploy], lines 413 to 416. *)
Definition main_az_deploy (host : Host) (args : Args) : Proc unit :=
  let fa := or_environ host (function_app args)
              "FUNCTION_APP_NAME" "your-function-app-name" in
  let rg := or_environ host (resource_group args)
              "RESOURCE_GROUP" "your-resource-group" in
  az_deploy host fa rg.

(** Steps that package or deploy, as opposed to printing. *)
Definition is_step (e : event) : bool :=
  match e with
  | Print _ _ => false
  | Package => true
  | Subprocess _ => true
  end.

(** The texts written to [stderr]. *)
Fixpoint stderr_lines (tr : list event) : list string :=
  match tr with
  | [] => []
  | Print Stderr text :: rest => text :: stderr_lines rest
  | _ :: rest => stderr_lines rest
  end.

(** What a rejected [az_deploy] prints: the header, the error on [stderr]
    and the usage line. *)
Definition rejection_trace (complaint : string) : list event :=
  [Print Stdout
     (newline ++ BLUE ++ BOLD
      ++ "Deploying to Azure Functions..." ++ ENDC);
   Print Stdout (rule 31);
   Print Stderr
     (RED ++ "❌ " ++ complaint ++ ENDC);
   Print Stdout
     (BLUE ++ "ℹ️  " ++ usage ++ ENDC)].

End Build.

(** ** A runtime for running the model on examples *)

Module Sample.
Import Py FunctionApp.

Definition dquote : string := String (ascii_of_nat 34) "".

Definition nl : string := String (ascii_of_nat 10) "".

Fixpoint spaces (n : nat) : string :=
  match n with
  | O => ""
  | S k => " " ++ spaces k
  end.

Fixpoint join (sep : string) (parts : list string) : string :=
  match parts with
  | [] => ""
  | [p] => p
  | p :: rest => p ++ sep ++ join sep rest
  end.

(** [json.dumps(v, indent=2)] at nesting [depth], for values without floats
    whose strings need no escape. *)
Fixpoint dumps_indent2 (depth : nat) (v : pyval) : string :=
  let inner := spaces (2 * S depth) in
  let close := nl ++ spaces (2 * depth) in
  match v with
  | PNone => "null"
  | PBool true => "true"
  | PBool false => "false"
  | PInt n => int_str n
  | PFloat _ => "NaN"
  | PStr s => dquote ++ s ++ dquote
  | PList [] => "[]"
  | PList l =>
      "[" ++ nl ++ inner
      ++ join ("," ++ nl ++ inner) (map (dumps_indent2 (S depth)) l)
      ++ close ++ "]"
  | PDict [] => "{}"
  | PDict l =>
      "{" ++ nl ++ inner
      ++ join ("," ++ nl ++ inner)
           (map (fun kv => dquote ++ fst kv ++ dquote ++ ": "
                           ++ dumps_indent2 (S depth) (snd kv)) l)
      ++ close ++ "}"
  end.

(** The renderings of CPython on [None], booleans, integers and on text made
    of printable ASCII characters other than quotes and the backslash.  Every
    float is given the text of a NaN: the examples contain no float. *)
Definition ascii_runtime : PyRuntime := {|
  float_repr := fun _ => "nan";
  str_repr := fun s => "'" ++ s ++ "'";
  json_dumps_indent2 := dumps_indent2 0
|}.

(** A [POST /chat] request whose [get_json] has the given outcome. *)
Definition post_chat (parsed : exn + pyval) : HttpRequest := {|
  method := "POST";
  url := "/api/chat";
  headers := [("Content-Type", "application/json")];
  get_json := parsed
|}.

(** The request of [test_health_check]: [body=None], so [get_json] fails on
    the empty text. *)
Definition get_health : HttpRequest := {|
  method := "GET";
  url := "/api/health";
  headers := [];
  get_json := inl (Exn JSONDecodeError
                     "Expecting value: line 1 column 1 (char 0)")
|}.

Definition noon : datetime := {|
  year := 2024; month := 3; day := 9;
  hour := 12; minute := 0; second := 5;
  microsecond := 1234
|}.

(** A host with an empty environment where every command succeeds. *)
Definition quiet_host : Build.Host := {|
  Build.environ := fun _ => None;
  Build.returncode := fun _ => 0;
  Build.az_package_outcome := Build.Returned tt
|}.

End Sample.

(** ** The archive written by [az_package] *)

Module Package.
Import FunctionApp.

(** The list [exclude_patterns] of [az_package]. *)
Definition exclude_patterns : list string :=
  [".git"; "tests"; "__pycache__"; ".pytest_cache"; "venv"; ".venv";
   ".vscode"; "terraform"; "helm"; "Dockerfile"; ".github";
   "requirements-dev.txt"; ".md"].

Definition backslash : ascii := ascii_of_nat 92.

Definition slash : ascii := ascii_of_nat 47.

(** [s.replace(old, new)] for one-character [old] and [new]. *)
Fixpoint replace_char (old new : ascii) (s : string) : string :=
  match s with
  | EmptyString => EmptyString
  | String c rest =>
      String (if Ascii.eqb c old then new else c) (replace_char old new rest)
  end.

(** [should_exclude(file_path)], lines 261 to 267: some pattern occurs in the
    path once its backslashes are turned into slashes. *)
Definition should_exclude (file_path : string) : bool :=
  let path_str := replace_char backslash slash file_path in
  existsb (fun pattern => str_in pattern path_str) exclude_patterns.

(** [s.endswith("/")]. *)
Fixpoint ends_with_slash (s : string) : bool :=
  match s with
  | EmptyString => false
  | String c EmptyString => Ascii.eqb c slash
  | String _ rest => ends_with_slash rest
  end.

(** [os.path.join(a, p)] of [posixpath]: an absolute [p] replaces [a], and
    the separator is added unless [a] is empty or ends with it. *)
Definition path_join (a p : string) : string :=
  if String.prefix "/" p then p
  else if (String.eqb a "" || ends_with_slash a)%bool then a ++ p
  else a ++ "/" ++ p.

(** A directory as [os.walk] reads it: its sub-directories and its files,
    each list in the order of the listing. *)
Inductive tree : Type :=
| Node (dirs : list (string * tree)) (files : list string).

(** The files of one directory that the loop of lines 274 to 278 hands to
    [zipf.write], by their [file_path]. *)
Fixpoint written_files (root : string) (files : list string) : list string :=
  match files with
  | [] => []
  | file :: rest =>
      let file_path := path_join root file in
      if (negb (should_exclude file_path) &&
          negb (String.eqb file "function-app.zip"))%bool
      then file_path :: written_files root rest
      else written_files root rest
  end.

(** The loop over [os.walk], lines 270 to 278, started at [root]: the paths
    handed to [zipf.write], in order.  The walk is top-down, and it does not
    enter the directories that the assignment to [dirs[:]] removes. *)
Fixpoint zip_members (root : string) (t : tree) : list string :=
  match t with
  | Node dirs files =>
      (written_files root files ++
       (fix visit (ds : list (string * tree)) : list string :=
          match ds with
          | [] => []
          | (d, sub) :: rest =>
              (if should_exclude (path_join root d) then []
               else zip_members (path_join root d) sub)
              ++ visit rest
          end) dirs)%list
  end.

(** Every file below [root], as the pair of the directory that holds it and
    its name: what [os.walk] yields when nothing is pruned. *)
Fixpoint all_files (root : string) (t : tree) : list (string * string) :=
  match t with
  | Node dirs files =>
      (map (fun file => (root, file)) files ++
       (fix visit (ds : list (string * tree)) : list (string * string) :=
          match ds with
          | [] => []
          | (d, sub) :: rest =>
              all_files (path_join root d) sub ++ visit rest
          end) dirs)%list
  end.

(** The test of line 276 on a file [file] of the directory [root]. *)
Definition kept (entry : string * string) : bool :=
  let (root, file) := entry in
  (negb (should_exclude (path_join root file)) &&
   negb (String.eqb file "function-app.zip"))%bool.

(** [file_path] for a file [file] of the directory [root]. *)
Definition entry_path (entry : string * string) : string :=
  path_join (fst entry) (snd entry).

(** A name of a directory entry is relative: it does not start with the
    separator. *)
Definition relative (name : string) : bool := negb (String.prefix "/" name).

(** All the names in a tree are relative. *)
Fixpoint relative_names (t : tree) : bool :=
  match t with
  | Node dirs files =>
      (forallb relative files &&
       (fix check (ds : list (string * tree)) : bool :=
          match ds with
          | [] => true
          | (d, sub) :: rest => relative d && relative_names sub && check rest
          end) dirs)%bool
  end.

End Package.

(** ** Reading the log of a handler *)

Module Logs.
Import FunctionApp.

(** The records logged with [logging.info]. *)
Definition is_info (r : LogRecord) : bool :=
  match levelname r with
  | INFO => true
  | _ => false
  end.

(** The record that an [except] clause of [chat_api] logs for [e]. *)
Definition error_record (e : exn) : LogRecord :=
  if is_ValueError e then
    {| levelname := ERROR;
       msg := "Invalid JSON in request: " ++ exn_msg e;
       exc_info := false |}
  else
    {| levelname := ERROR;
       msg := "Error processing request: " ++ exn_msg e;
       exc_info := true |}.

End Logs.

(** ** The tasks of [build.py] *)

Module Tasks.
Import Build.
Local Open Scope proc_scope.

(** What the tasks read from the interpreter and the file system:
    [sys.platform == "win32"], [Path.exists] and [sys.executable]. *)
Record Platform : Type := {
  win32 : bool;
  path_exists : string -> bool;
  executable : string
}.

(** [get_venv_python()]. *)
Definition get_venv_python (plat : Platform) : string :=
  let python_path :=
    if win32 plat then ".venv\Scripts\python.exe" else ".venv/bin/python" in
  if path_exists plat python_path then python_path else executable plat.

(** [get_venv_pip()]. *)
Definition get_venv_pip (plat : Platform) : string :=
  let pip_path :=
    if win32 plat then ".venv\Scripts\pip.exe" else ".venv/bin/pip" in
  if path_exists plat pip_path then pip_path else "pip".

(** [run_command(cmd, check=check)]: without [check], [subprocess.run] does
    not raise on a return code other than zero. *)
Definition run_command_check (host : Host) (cmd : list string) (check : bool)
  : Proc unit :=
  perform (Subprocess cmd) ;;
  let rc := returncode host cmd in
  if (negb check || (rc =? 0))%bool then ret tt
  else
    print_error ("Command failed with exit code " ++ Py.int_str rc) ;;
    sys_exit rc.

Section WithPlatform.
Variables (host : Host) (plat : Platform).

Definition venv_cmd : list string :=
  [executable plat; "-m"; "venv"; ".venv"].

Definition pip_upgrade_cmd : list string :=
  [get_venv_pip plat; "install"; "--upgrade"; "pip"].

Definition pip_install_dev_cmd : list string :=
  [get_venv_pip plat; "install"; "-r"; "requirements-dev.txt"].

(** [setup()].  The path of [pip] is looked up once, after the virtual
    environment was created. *)
Definition setup : Proc unit :=
  print_header "Setting up development environment..." ;;
  print_info "Creating virtual environment..." ;;
  run_command host venv_cmd ;;
  print_info "Upgrading pip..." ;;
  run_command host pip_upgrade_cmd ;;
  print_info "Installing dependencies..." ;;
  run_command host pip_install_dev_cmd ;;
  print_success "Setup complete!" ;;
  if win32 plat then print_info "Activate venv with: .venv\Scripts\activate"
  else print_info "Activate venv with: source .venv/bin/activate".

Definition pytest_cmd : list string :=
  [get_venv_python plat; "-m"; "pytest"; "tests/"; "-v"].

(** [test()]. *)
Definition test : Proc unit :=
  print_header "Running tests..." ;;
  run_command host pytest_cmd ;;
  print_success "Tests passed!".

Definition coverage_cmd : list string :=
  [get_venv_python plat; "-m"; "pytest"; "tests/"; "-v";
   "--cov=function_app"; "--cov-report=html"; "--cov-report=term"].

(** [coverage()]. *)
Definition coverage : Proc unit :=
  print_header "Running tests with coverage..." ;;
  run_command host coverage_cmd ;;
  print_success "Coverage report generated in htmlcov/index.html".

Definition flake8_critical_cmd : list string :=
  [get_venv_python plat; "-m"; "flake8"; "function_app.py";
   "--count"; "--select=E9,F63,F7,F82"; "--show-source"; "--statistics"].

Definition flake8_all_cmd : list string :=
  [get_venv_python plat; "-m"; "flake8"; "function_app.py";
   "--count"; "--exit-zero"; "--max-complexity=10";
   "--max-line-length=127"; "--statistics"].

Definition mypy_cmd : list string :=
  [get_venv_python plat; "-m"; "mypy"; "function_app.py";
   "--ignore-missing-imports"].

(** [lint()]. *)
Definition lint : Proc unit :=
  print_header "Running linting checks..." ;;
  print_info "Running flake8 (critical errors)..." ;;
  run_command host flake8_critical_cmd ;;
  print_info "Running flake8 (all checks)..." ;;
  run_command_check host flake8_all_cmd false ;;
  print_info "Running mypy..." ;;
  run_command host mypy_cmd ;;
  print_success "Linting checks passed!".

Definition black_cmd : list string :=
  [get_venv_python plat; "-m"; "black"; "."].

(** [format_code()]. *)
Definition format_code : Proc unit :=
  print_header "Formatting code..." ;;
  run_command host black_cmd ;;
  print_success "Code formatted!".

(** [func_start()]. *)
Definition func_start : Proc unit :=
  print_header "Starting Azure Function locally..." ;;
  run_command host ["func"; "start"].

(** [run_all()]. *)
Definition run_all : Proc unit :=
  print_header "Running all checks..." ;;
  format_code ;;
  lint ;;
  test ;;
  print_success "All checks passed!".

Definition help_text : string :=
"
Available commands:

  python build.py setup          - Set up local development environment
  python build.py clean          - Clean build artifacts and cache
  python build.py test           - Run tests
  python build.py coverage       - Run tests with coverage report
  python build.py lint           - Run linting checks
  python build.py format         - Format code with black
  python build.py func-start     - Start Azure Function locally
  python build.py az-package     - Create deployment package for Azure
  python build.py az-deploy      - Deploy to Azure Functions using Azure CLI
                                   --function-app <name> --resource-group <group>
  python build.py tf-init        - Initialize Terraform
  python build.py tf-plan        - Run Terraform plan
  python build.py tf-apply       - Apply Terraform configuration
  python build.py all            - Run format, lint, and test

Examples:
  python build.py setup
  python build.py test
  python build.py az-deploy --function-app my-app --resource-group my-rg
".

(** [show_help()]. *)
Definition show_help : Proc unit := perform (Print Stdout help_text).

(** The tasks that work on the file system or in another directory:
    [clean], [tf_init], [tf_plan] and [tf_apply]. *)
Record OtherTasks : Type := {
  clean : Proc unit;
  tf_init : Proc unit;
  tf_plan : Proc unit;
  tf_apply : Proc unit
}.

Variable others : OtherTasks.

(** The dictionary [commands] of [main]. *)
Definition commands : list (string * Proc unit) :=
  [("setup", setup);
   ("clean", clean others);
   ("test", test);
   ("coverage", coverage);
   ("lint", lint);
   ("format", format_code);
   ("func-start", func_start);
   ("az-package", az_package host);
   ("tf-init", tf_init others);
   ("tf-plan", tf_plan others);
   ("tf-apply", tf_apply others);
   ("all", run_all);
   ("help", show_help)].

(** [commands[name]] when [name in commands]. *)
Fixpoint lookup_command (table : list (string * Proc unit)) (name : string)
  : option (Proc unit) :=
  match table with
  | [] => None
  | (k, task) :: rest =>
      if String.eqb k name then Some task else lookup_command rest name
  end.

(** What [parser.parse_args()] returns: the positional [command], the flag
    [--help] and the two options of [az-deploy]. *)
Record MainArgs : Type := {
  command : option string;
  help : bool;
  options : Args
}.

(** [main()], from line 393 on.  [not args.command] holds when no command
    was given and when it is the empty string. *)
Definition main (args : MainArgs) : Proc unit :=
  let name := match command args with Some n => n | None => "" end in
  if (help args || String.eqb name "")%bool then show_help
  else if String.eqb name "az-deploy" then
    main_az_deploy host (options args)
  else
    match lookup_command commands name with
    | Some task => task
    | None =>
        print_error ("Unknown command: " ++ name) ;;
        show_help ;;
        sys_exit 1
    end.

End WithPlatform.

(** The events of a trace that run a subprocess. *)
Fixpoint subprocesses (tr : list event) : list (list string) :=
  match tr with
  | [] => []
  | Subprocess cmd :: rest => cmd :: subprocesses rest
  | _ :: rest => subprocesses rest
  end.

(** The texts written to [stdout]. *)
Fixpoint stdout_lines (tr : list event) : list string :=
  match tr with
  | [] => []
  | Print Stdout text :: rest => text :: stdout_lines rest
  | _ :: rest => stdout_lines rest
  end.

(** The command line of the deployment, lines 312 to 318. *)
Definition az_deploy_cmd (function_app_name resource_group : string)
  : list string :=
  ["az"; "functionapp"; "deployment"; "source"; "config-zip";
   "--resource-group"; resource_group;
   "--name"; function_app_name;
   "--src"; "function-app.zip";
   "--build-remote"; "true"].

(** The names that pass the checks of [az_deploy]. *)
Definition names_set (function_app_name resource_group : string) : bool :=
  (negb (String.eqb function_app_name "" ||
         String.eqb function_app_name "your-function-app-name") &&
   negb (String.eqb resource_group "" ||
         String.eqb resource_group "your-resource-group"))%bool.

(** How a sequence of checked commands ends, given their return codes in
    order: the first code that is not zero ends the process. *)
Fixpoint first_failure (codes : list Z) : outcome unit :=
  match codes with
  | [] => Returned tt
  | rc :: rest => if rc =? 0 then first_failure rest else SysExit rc
  end.

(** The line [print_error] writes when a command fails with [rc]. *)
Definition failure_line (rc : Z) : string :=
  RED ++ "❌ " ++ "Command failed with exit code " ++ Py.int_str rc ++ ENDC.

(** The line [print_success(message)] writes. *)
Definition success_line (message : string) : string :=
  GREEN ++ "✅ " ++ message ++ ENDC.

End Tasks.

(** ** Values for running the tasks and the archive on examples *)

Module SampleTasks.
Import Package Tasks.

(** A checkout of the repository with its packages installed. *)
Definition checkout : tree :=
  Node [("tests", Node [] ["test_chat_api.py"]);
        (".python_packages",
         Node [("lib", Node [("site-packages", Node [] ["six.py"])] [])] []);
        ("docs", Node [] ["notes.md"; "api.txt"])]
       ["function_app.py"; "host.json"; "README.md"; "function-app.zip";
        "requirements.txt"; "requirements-dev.txt"].

(** A POSIX machine where the virtual environment exists. *)
Definition posix : Platform := {|
  win32 := false;
  path_exists := fun _ => true;
  executable := "/usr/bin/python3"
|}.

(** A host where every command returns 2. *)
Definition failing_host : Build.Host := {|
  Build.environ := fun _ => None;
  Build.returncode := fun _ => 2;
  Build.az_package_outcome := Build.Returned tt
|}.

(** The tasks left abstract, as tasks that do nothing. *)
Definition idle_tasks : OtherTasks := {|
  clean := Build.ret tt;
  tf_init := Build.ret tt;
  tf_plan := Build.ret tt;
  tf_apply := Build.ret tt
|}.

Definition no_options : Build.Args := {|
  Build.function_app := None;
  Build.resource_group := None
|}.

End SampleTasks.

(** * Properties of the handlers *)

Import Py FunctionApp.
Local Open Scope handler_scope.

Ltac run_handler :=
  unfold result, run, chat_api, health_check, chat_api_try, chat_api_except,
    try_except, bind, call_get_json, py_get, logging_info, logging_warning,
    logging_error, emit, ret, raise.

Section ChatApi.
Context {rt : PyRuntime}.
Variables (req : HttpRequest) (now : datetime).

(** The outcome of the [try] block does not depend on what was logged
    before it. *)
Lemma chat_api_try_log_irrelevant (log1 log2 : list LogRecord) :
  fst (chat_api_try req now log1) = fst (chat_api_try req now log2).
Proof.
  run_handler.
  destruct (get_json req) as [e | v]; simpl; [reflexivity |].
  destruct v; simpl; try reflexivity.
  destruct (truthy (dict_get items "message" (PStr ""))); reflexivity.
Qed.

(** The handler returns what the [try] block returns, and otherwise what the
    matching [except] clause returns. *)
Lemma chat_api_result :
  result (chat_api req now) =
  match result (chat_api_try req now) with
  | inr r => inr r
  | inl e => result (chat_api_except now e)
  end.
Proof.
  unfold result, run, chat_api, try_except, bind, logging_info, emit. simpl.
  rewrite (surjective_pairing (chat_api_try req now _)).
  rewrite (chat_api_try_log_irrelevant _ []).
  rewrite (surjective_pairing (chat_api_try req now [])).
  destruct (fst (chat_api_try req now [])) as [e | r]; simpl; [| reflexivity].
  unfold chat_api_except, bind, logging_error, emit, ret.
  destruct (is_ValueError e); reflexivity.
Qed.

Lemma chat_api_try_raise (e : exn) :
  get_json req = inl e -> result (chat_api_try req now) = inl e.
Proof. intros H. run_handler. rewrite H. reflexivity. Qed.

Lemma chat_api_try_dict (items : list (string * pyval)) :
  get_json req = inr (PDict items) ->
  result (chat_api_try req now) = inr (answer_to_dict now items).
Proof.
  intros H. run_handler. rewrite H. simpl. unfold answer_to_dict.
  destruct (truthy (dict_get items "message" (PStr ""))); reflexivity.
Qed.

Lemma chat_api_try_not_dict (v : pyval) :
  get_json req = inr v ->
  (forall items, v <> PDict items) ->
  exists text, result (chat_api_try req now) = inl (Exn AttributeError text).
Proof.
  intros H Hv. run_handler. rewrite H.
  destruct v; simpl; try (eexists; reflexivity).
  exfalso. apply (Hv items). reflexivity.
Qed.

Lemma chat_api_except_value_error (e : exn) :
  is_ValueError e = true ->
  result (chat_api_except now e) =
  inr (json_response (error_body "Invalid JSON format" now) 400).
Proof. intros H. run_handler. rewrite H. reflexivity. Qed.

Lemma chat_api_except_other (e : exn) :
  is_ValueError e = false ->
  result (chat_api_except now e) =
  inr (json_response (error_body "Internal server error" now) 500).
Proof. intros H. run_handler. rewrite H. reflexivity. Qed.

Lemma chat_api_dict (items : list (string * pyval)) :
  get_json req = inr (PDict items) ->
  result (chat_api req now) = inr (answer_to_dict now items).
Proof.
  intros H. rewrite chat_api_result, (chat_api_try_dict _ H). reflexivity.
Qed.

End ChatApi.

Section ChatClaims.
Context {rt : PyRuntime}.

(** C1.  For every non-empty string [m] and every string [u], [chat_api] on
    a request whose body is the JSON object with [message] set to [m] and
    [user_id] set to [u] returns HTTP 200 with a JSON body whose [status] is
    "success", whose [user_id] is [u], whose [message_received] is [m] and
    whose [response] is "Echo: " followed by [m]. *)
Theorem chat_api_echoes_message
        (req : HttpRequest) (now : datetime) (m u : string) :
  m <> "" ->
  get_json req = inr (PDict [("message", PStr m); ("user_id", PStr u)]) ->
  exists r,
    result (chat_api req now) = inr r /\
    status_code r = 200 /\
    body_field r "status" = Some (PStr "success") /\
    body_field r "user_id" = Some (PStr u) /\
    body_field r "message_received" = Some (PStr m) /\
    body_field r "response" = Some (PStr ("Echo: " ++ m)).
Proof.
  intros Hm Hbody.
  rewrite (chat_api_dict _ _ _ Hbody).
  unfold answer_to_dict, dict_get. simpl.
  apply String.eqb_neq in Hm. rewrite Hm. simpl.
  eexists. split; [reflexivity |]. repeat split.
Qed.

(** C2.  When the body parses to a JSON object in which [message] is absent
    or is the empty string, [chat_api] returns HTTP 400 with a JSON body
    whose [error] is exactly "Message field is required", a text that
    mentions "required". *)
Theorem chat_api_requires_message
        (req : HttpRequest) (now : datetime) (items : list (string * pyval)) :
  get_json req = inr (PDict items) ->
  dict_lookup items "message" = None \/
  dict_lookup items "message" = Some (PStr "") ->
  exists r text,
    result (chat_api req now) = inr r /\
    status_code r = 400 /\
    body_field r "error" = Some (PStr text) /\
    text = "Message field is required" /\
    str_in "required" (lower text) = true.
Proof.
  intros Hbody Hmsg.
  rewrite (chat_api_dict _ _ _ Hbody).
  assert (Hget : dict_get items "message" (PStr "") = PStr "")
    by (unfold dict_get; destruct Hmsg as [-> | ->]; reflexivity).
  unfold answer_to_dict. rewrite Hget. simpl.
  do 2 eexists. split; [reflexivity |]. repeat split.
Qed.


(** C4.  When the body is valid JSON whose top-level value is not an object,
    the access to [req_body.get] raises an [AttributeError], which is not a
    [ValueError], and [chat_api] returns HTTP 500 with the error "Internal
    server error", not HTTP 400. *)
Theorem chat_api_non_object_is_500
        (req : HttpRequest) (now : datetime) (v : pyval) :
  get_json req = inr v ->
  (forall items, v <> PDict items) ->
  exists r e,
    result (chat_api_try req now) = inl e /\
    exn_cls e = AttributeError /\
    is_ValueError e = false /\
    result (chat_api req now) = inr r /\
    status_code r = 500 /\
    status_code r <> 400 /\
    body_field r "error" = Some (PStr "Internal server error").
Proof.
  intros Hbody Hv.
  destruct (chat_api_try_not_dict _ now _ Hbody Hv) as [text Htry].
  rewrite chat_api_result, Htry.
  rewrite chat_api_except_other by reflexivity.
  do 2 eexists. split; [reflexivity |]. repeat split. simpl. lia.
Qed.

(** C5.  When processing raises an exception that is not a [ValueError],
    [chat_api] returns HTTP 500 with a JSON body whose [error] is exactly
    "Internal server error".  The response is built from the clock alone:
    two requests that fail with two such exceptions get the same response, so
    nothing of the cause reaches the caller. *)
Theorem chat_api_hides_unexpected_failure
        (req req' : HttpRequest) (now : datetime) (e e' : exn) :
  result (chat_api_try req now) = inl e ->
  is_ValueError e = false ->
  result (chat_api_try req' now) = inl e' ->
  is_ValueError e' = false ->
  result (chat_api req now) =
    inr (json_response (error_body "Internal server error" now) 500) /\
  result (chat_api req' now) = result (chat_api req now) /\
  exists r,
    result (chat_api req now) = inr r /\
    status_code r = 500 /\
    body_field r "error" = Some (PStr "Internal server error").
Proof.
  intros Htry He Htry' He'.
  rewrite !chat_api_result, Htry, Htry'.
  rewrite !chat_api_except_other by assumption.
  repeat split. eexists. split; [reflexivity |]. repeat split.
Qed.

(** C6.  [chat_api] is total: on every request, whatever its body and
    whatever was logged before, it returns a response and raises nothing; the
    status is 200, 400 or 500, and the body of every response other than 200
    is a JSON object with exactly the two fields [error] and [timestamp]. *)
Theorem chat_api_total
        (req : HttpRequest) (now : datetime) (log : list LogRecord) :
  exists r log',
    chat_api req now log = (inr r, log') /\
    (status_code r = 200 \/ status_code r = 400 \/ status_code r = 500) /\
    (status_code r <> 200 ->
     body_fields r = Some ["error"; "timestamp"]).
Proof.
  run_handler. simpl.
  destruct (get_json req) as [e | v]; simpl.
  - destruct (is_ValueError e); simpl; do 2 eexists;
      (split; [reflexivity |]); simpl; split; auto; lia.
  - destruct v; simpl;
      try (do 2 eexists; (split; [reflexivity |]); simpl; split; auto; lia).
    destruct (truthy (dict_get items "message" (PStr ""))); simpl;
      do 2 eexists; (split; [reflexivity |]); simpl; split; auto; lia.
Qed.

(** C7.  When the body parses to a JSON object with a non-empty [message]
    and no [user_id], [chat_api] returns HTTP 200 and the [user_id] of the
    response is "anonymous". *)
Theorem chat_api_defaults_user_id
        (req : HttpRequest) (now : datetime)
        (items : list (string * pyval)) (m : string) :
  get_json req = inr (PDict items) ->
  dict_lookup items "message" = Some (PStr m) ->
  m <> "" ->
  dict_lookup items "user_id" = None ->
  exists r,
    result (chat_api req now) = inr r /\
    status_code r = 200 /\
    body_field r "user_id" = Some (PStr "anonymous").
Proof.
  intros Hbody Hmsg Hm Huser.
  rewrite (chat_api_dict _ _ _ Hbody).
  unfold answer_to_dict, dict_get. rewrite Hmsg, Huser. simpl.
  apply String.eqb_neq in Hm. rewrite Hm. simpl.
  eexists. split; [reflexivity |]. repeat split.
Qed.

(** C8.  On every request, whatever its content and whatever was logged
    before, [health_check] returns HTTP 200 with a JSON body whose [status]
    is "healthy" and which has a [timestamp]; it has no failure path and no
    other status code. *)
Theorem health_check_always_healthy
        (req : HttpRequest) (now : datetime) (log : list LogRecord) :
  exists r log',
    health_check req now log = (inr r, log') /\
    status_code r = 200 /\
    body_field r "status" = Some (PStr "healthy") /\
    body_field r "timestamp" = Some (PStr (isoformat now)).
Proof.
  run_handler. do 2 eexists. split; [reflexivity |]. repeat split.
Qed.

(** C10.  The test on [message] is its truth value, not emptiness of a
    string.  When the body is a JSON object whose [message] is present and
    falsy (0, false, null and the empty string alike), [chat_api] returns
    HTTP 400 "Message field is required"; when it is truthy (the number 42
    as much as a non-empty string), [chat_api] returns HTTP 200 and
    [response] is "Echo: " followed by the [str] of the value. *)
Theorem chat_api_message_truthiness
        (req : HttpRequest) (now : datetime)
        (items : list (string * pyval)) (v : pyval) :
  get_json req = inr (PDict items) ->
  dict_lookup items "message" = Some v ->
  exists r,
    result (chat_api req now) = inr r /\
    (truthy v = false ->
     status_code r = 400 /\
     body_field r "error" = Some (PStr "Message field is required")) /\
    (truthy v = true ->
     status_code r = 200 /\
     body_field r "message_received" = Some v /\
     body_field r "response" = Some (PStr ("Echo: " ++ py_str v))).
Proof.
  intros Hbody Hmsg.
  rewrite (chat_api_dict _ _ _ Hbody).
  unfold answer_to_dict, dict_get. rewrite Hmsg.
  eexists. split; [reflexivity |].
  destruct (truthy v); simpl; split; intros H; try discriminate H;
    repeat split.
Qed.

End ChatClaims.

(** * Properties of the deployment task *)

Section AzDeploy.
Variable host : Build.Host.

Lemma az_deploy_bad_function_app (fa rg : string) :
  fa = "" \/ fa = "your-function-app-name" ->
  Build.run (Build.az_deploy host fa rg) =
  (Build.SysExit 1, Build.rejection_trace "FUNCTION_APP_NAME not set").
Proof. intros [-> | ->]; reflexivity. Qed.

Lemma az_deploy_bad_resource_group (fa rg : string) :
  fa <> "" -> fa <> "your-function-app-name" ->
  rg = "" \/ rg = "your-resource-group" ->
  Build.run (Build.az_deploy host fa rg) =
  (Build.SysExit 1, Build.rejection_trace "RESOURCE_GROUP not set").
Proof.
  intros H1 H2 Hrg.
  apply String.eqb_neq in H1, H2.
  unfold Build.run, Build.az_deploy, Build.bind, Build.print_header,
    Build.perform.
  simpl. rewrite H1, H2.
  destruct Hrg as [-> | ->]; reflexivity.
Qed.

Lemma az_deploy_rejected (fa rg : string) :
  fa = "" \/ fa = "your-function-app-name" \/
  rg = "" \/ rg = "your-resource-group" ->
  exists complaint,
    (complaint = "FUNCTION_APP_NAME not set" \/
     complaint = "RESOURCE_GROUP not set") /\
    Build.run (Build.az_deploy host fa rg) =
    (Build.SysExit 1, Build.rejection_trace complaint).
Proof.
  intros H.
  destruct (string_dec fa "") as [E1 | N1];
    [eexists; split; [left; reflexivity |];
     apply az_deploy_bad_function_app; auto |].
  destruct (string_dec fa "your-function-app-name") as [E2 | N2];
    [eexists; split; [left; reflexivity |];
     apply az_deploy_bad_function_app; auto |].
  eexists. split; [right; reflexivity |].
  apply az_deploy_bad_resource_group; auto.
  destruct H as [H | [H | [H | H]]]; auto; contradiction.
Qed.

(** C9.  [az_deploy] ends the process with exit code 1 and prints an error
    message on [stderr] whenever the function-app name is unset (empty) or
    is the placeholder "your-function-app-name", or the resource group is
    unset or is the placeholder "your-resource-group"; it then has performed
    no packaging and no deployment step. *)
Theorem az_deploy_exits_1_when_unset (fa rg : string) :
  fa = "" \/ fa = "your-function-app-name" \/
  rg = "" \/ rg = "your-resource-group" ->
  exists trace complaint,
    Build.run (Build.az_deploy host fa rg) = (Build.SysExit 1, trace) /\
    Build.stderr_lines trace
      = [Build.RED ++ "❌ " ++ complaint ++ Build.ENDC] /\
    (complaint = "FUNCTION_APP_NAME not set" \/
     complaint = "RESOURCE_GROUP not set") /\
    forallb (fun e => negb (Build.is_step e)) trace = true.
Proof.
  intros H. destruct (az_deploy_rejected fa rg H) as [complaint [Hc Hrun]].
  exists (Build.rejection_trace complaint), complaint.
  split; [exact Hrun |]. split; [reflexivity |]. split; [exact Hc |].
  reflexivity.
Qed.

(** The same guard seen from [main]: with neither option given and neither
    environment variable set, the placeholders reach [az_deploy]. *)
Lemma main_az_deploy_unset (args : Build.Args) :
  Build.function_app args = None ->
  Build.environ host "FUNCTION_APP_NAME" = None ->
  Build.run (Build.main_az_deploy host args) =
  (Build.SysExit 1, Build.rejection_trace "FUNCTION_APP_NAME not set").
Proof.
  intros Harg Henv. unfold Build.main_az_deploy, Build.or_environ.
  rewrite Harg, Henv. apply az_deploy_bad_function_app. auto.
Qed.

Lemma main_az_deploy_resource_group_unset (args : Build.Args) (fa : string) :
  Build.function_app args = Some fa ->
  fa <> "" -> fa <> "your-function-app-name" ->
  Build.resource_group args = None ->
  Build.environ host "RESOURCE_GROUP" = None ->
  Build.run (Build.main_az_deploy host args) =
  (Build.SysExit 1, Build.rejection_trace "RESOURCE_GROUP not set").
Proof.
  intros Hfa N1 N2 Hrg Henv. unfold Build.main_az_deploy, Build.or_environ.
  rewrite Hfa, Hrg, Henv.
  destruct (String.eqb_spec fa "") as [E | _]; [contradiction |].
  apply az_deploy_bad_resource_group; auto.
Qed.

(** With proper names the guard lets the packaging start. *)
Lemma az_deploy_accepted_packages (fa rg : string) :
  fa <> "" -> fa <> "your-function-app-name" ->
  rg <> "" -> rg <> "your-resource-group" ->
  In Build.Package (snd (Build.run (Build.az_deploy host fa rg))).
Proof.
  intros H1 H2 H3 H4.
  apply String.eqb_neq in H1, H2, H3, H4.
  unfold Build.run, Build.az_deploy, Build.bind, Build.print_header,
    Build.az_package, Build.perform.
  simpl. rewrite H1, H2, H3, H4. simpl.
  destruct (Build.az_package_outcome host) as [[] | code]; simpl.
  - unfold Build.print_info, Build.run_command, Build.bind, Build.perform.
    simpl.
    match goal with
    | |- context [Z.eqb ?a 0] => destruct (Z.eqb a 0)
    end; simpl; auto 10.
  - auto.
Qed.

End AzDeploy.

(** * The handlers run on concrete requests *)

Section Runs.
Import Sample.
#[local] Existing Instance ascii_runtime.

(** [test_chat_api_success]. *)
Example test_chat_api_success :
  result (chat_api
            (post_chat (inr (PDict [("message", PStr "Hello, Azure!");
                                    ("user_id", PStr "test_user_123")])))
            noon)
  = inr (json_response
           (PDict [("status", PStr "success");
                   ("user_id", PStr "test_user_123");
                   ("message_received", PStr "Hello, Azure!");
                   ("response", PStr "Echo: Hello, Azure!");
                   ("timestamp", PStr "2024-03-09T12:00:05.001234")])
           200).
Proof. reflexivity. Qed.

(** [test_chat_api_empty_message]. *)
Example test_chat_api_empty_message :
  result (chat_api
            (post_chat (inr (PDict [("message", PStr "");
                                    ("user_id", PStr "test_user_123")])))
            noon)
  = inr (json_response (error_body "Message field is required" noon) 400).
Proof. reflexivity. Qed.

(** [test_chat_api_missing_message_field]. *)
Example test_chat_api_missing_message_field :
  result (chat_api
            (post_chat (inr (PDict [("user_id", PStr "test_user_123")])))
            noon)
  = inr (json_response (error_body "Message field is required" noon) 400).
Proof. reflexivity. Qed.

(** [test_chat_api_invalid_json]. *)
Example test_chat_api_invalid_json :
  result (chat_api
            (post_chat (inl (Exn JSONDecodeError
                               "Expecting value: line 1 column 1 (char 0)")))
            noon)
  = inr (json_response (error_body "Invalid JSON format" noon) 400).
Proof. reflexivity. Qed.

(** [test_chat_api_anonymous_user]. *)
Example test_chat_api_anonymous_user :
  match result (chat_api
                  (post_chat
                     (inr (PDict [("message", PStr "Hello from anonymous")])))
                  noon) with
  | inr r => status_code r = 200 /\
             body_field r "status" = Some (PStr "success") /\
             body_field r "user_id" = Some (PStr "anonymous")
  | inl _ => False
  end.
Proof. simpl. repeat split. Qed.

(** [test_health_check]. *)
Example test_health_check :
  result (health_check get_health noon)
  = inr (json_response
           (PDict [("status", PStr "healthy");
                   ("timestamp", PStr "2024-03-09T12:00:05.001234")])
           200).
Proof. reflexivity. Qed.

(** The cause of a failure goes to the log and not to the response. *)
Example failure_is_logged_not_returned :
  let req := post_chat (inr (PList [PInt 1; PInt 2])) in
  let cause := "'list' object has no attribute 'get'" in
  result (chat_api req noon)
  = inr (json_response (error_body "Internal server error" noon) 500) /\
  last (snd (run (chat_api req noon)))
       {| levelname := INFO; msg := ""; exc_info := false |}
  = {| levelname := ERROR;
       msg := "Error processing request: " ++ cause;
       exc_info := true |}.
Proof. split; reflexivity. Qed.

(** Falsy values that are not the empty string are refused as well. *)
Example falsy_messages_are_refused :
  forall v, In v [PInt 0; PBool false; PNone; PList []; PDict [];
                  PFloat PrimFloat.zero; PFloat PrimFloat.neg_zero] ->
  result (chat_api (post_chat (inr (PDict [("message", v)]))) noon)
  = inr (json_response (error_body "Message field is required" noon) 400).
Proof.
  intros v Hv. simpl in Hv.
  repeat (destruct Hv as [<- | Hv]; [reflexivity |]). contradiction.
Qed.

(** Truthy values that are not strings are echoed through [str]. *)
Example number_is_echoed :
  match result (chat_api (post_chat (inr (PDict [("message", PInt 42)])))
                  noon) with
  | inr r => status_code r = 200 /\
             body_field r "message_received" = Some (PInt 42) /\
             body_field r "response" = Some (PStr "Echo: 42")
  | inl _ => False
  end.
Proof. simpl. repeat split. Qed.

Example true_is_echoed :
  match result (chat_api (post_chat (inr (PDict [("message", PBool true)])))
                  noon) with
  | inr r => status_code r = 200 /\
             body_field r "response" = Some (PStr "Echo: True")
  | inl _ => False
  end.
Proof. simpl. repeat split. Qed.

(** A NaN is truthy. *)
Example nan_is_truthy : truthy (PFloat PrimFloat.nan) = true.
Proof. reflexivity. Qed.

End Runs.

(** * The theorems applied to concrete requests *)

Section Witnesses.
Import Sample.
#[local] Existing Instance ascii_runtime.

(** The request of [test_chat_api_success]. *)
Lemma chat_api_echoes_message_witness :
  let req := post_chat (inr (PDict [("message", PStr "Hello, Azure!");
                                    ("user_id", PStr "test_user_123")])) in
  "Hello, Azure!" <> "" /\
  exists r,
    result (chat_api req noon) = inr r /\
    status_code r = 200 /\
    body_field r "status" = Some (PStr "success") /\
    body_field r "user_id" = Some (PStr "test_user_123") /\
    body_field r "message_received" = Some (PStr "Hello, Azure!") /\
    body_field r "response" = Some (PStr ("Echo: " ++ "Hello, Azure!")).
Proof.
  split; [discriminate |].
  apply (chat_api_echoes_message _ noon "Hello, Azure!" "test_user_123");
    [discriminate | reflexivity].
Defined.

(** The request of [test_chat_api_missing_message_field]. *)
Lemma chat_api_requires_message_witness :
  let items := [("user_id", PStr "test_user_123")] in
  dict_lookup items "message" = None /\
  exists r text,
    result (chat_api (post_chat (inr (PDict items))) noon) = inr r /\
    status_code r = 400 /\
    body_field r "error" = Some (PStr text) /\
    text = "Message field is required" /\
    str_in "required" (lower text) = true.
Proof.
  split; [reflexivity |].
  apply (chat_api_requires_message
           (post_chat (inr (PDict [("user_id", PStr "test_user_123")])))
           noon [("user_id", PStr "test_user_123")]);
    [reflexivity | left; reflexivity].
Defined.


(** A body that is a bare JSON string. *)
Lemma chat_api_non_object_is_500_witness :
  let req := post_chat (inr (PStr "hello")) in
  exists r e,
    result (chat_api_try req noon) = inl e /\
    exn_cls e = AttributeError /\
    is_ValueError e = false /\
    result (chat_api req noon) = inr r /\
    status_code r = 500 /\
    status_code r <> 400 /\
    body_field r "error" = Some (PStr "Internal server error").
Proof.
  apply (chat_api_non_object_is_500
           (post_chat (inr (PStr "hello"))) noon (PStr "hello"));
    [reflexivity | discriminate].
Defined.

(** A body that is an array, and a body too deeply nested for the parser. *)
Lemma chat_api_hides_unexpected_failure_witness :
  let req := post_chat (inr (PList [PInt 1; PInt 2])) in
  let req' := post_chat (inl (Exn RecursionError
                                "maximum recursion depth exceeded")) in
  result (chat_api req noon) =
    inr (json_response (error_body "Internal server error" noon) 500) /\
  result (chat_api req' noon) = result (chat_api req noon) /\
  exists r,
    result (chat_api req noon) = inr r /\
    status_code r = 500 /\
    body_field r "error" = Some (PStr "Internal server error").
Proof.
  apply (chat_api_hides_unexpected_failure
           (post_chat (inr (PList [PInt 1; PInt 2])))
           (post_chat (inl (Exn RecursionError
                              "maximum recursion depth exceeded")))
           noon
           (Exn AttributeError "'list' object has no attribute 'get'")
           (Exn RecursionError "maximum recursion depth exceeded"));
    reflexivity.
Defined.

(** The request of [test_chat_api_anonymous_user]. *)
Lemma chat_api_defaults_user_id_witness :
  let items := [("message", PStr "Hello from anonymous")] in
  dict_lookup items "user_id" = None /\
  exists r,
    result (chat_api (post_chat (inr (PDict items))) noon) = inr r /\
    status_code r = 200 /\
    body_field r "user_id" = Some (PStr "anonymous").
Proof.
  split; [reflexivity |].
  apply (chat_api_defaults_user_id
           (post_chat (inr (PDict [("message", PStr "Hello from anonymous")])))
           noon [("message", PStr "Hello from anonymous")]
           "Hello from anonymous");
    [reflexivity | reflexivity | discriminate | reflexivity].
Defined.

(** The numbers 0 and 42 as messages. *)
Lemma chat_api_message_truthiness_witness :
  (exists r,
     result (chat_api (post_chat (inr (PDict [("message", PInt 0)]))) noon)
       = inr r /\
     (truthy (PInt 0) = false ->
      status_code r = 400 /\
      body_field r "error" = Some (PStr "Message field is required")) /\
     (truthy (PInt 0) = true ->
      status_code r = 200 /\
      body_field r "message_received" = Some (PInt 0) /\
      body_field r "response" = Some (PStr ("Echo: " ++ py_str (PInt 0))))) /\
  (exists r,
     result (chat_api (post_chat (inr (PDict [("message", PInt 42)]))) noon)
       = inr r /\
     (truthy (PInt 42) = false ->
      status_code r = 400 /\
      body_field r "error" = Some (PStr "Message field is required")) /\
     (truthy (PInt 42) = true ->
      status_code r = 200 /\
      body_field r "message_received" = Some (PInt 42) /\
      body_field r "response" = Some (PStr ("Echo: " ++ py_str (PInt 42))))).
Proof.
  split.
  - apply (chat_api_message_truthiness
             (post_chat (inr (PDict [("message", PInt 0)]))) noon
             [("message", PInt 0)] (PInt 0)); reflexivity.
  - apply (chat_api_message_truthiness
             (post_chat (inr (PDict [("message", PInt 42)]))) noon
             [("message", PInt 42)] (PInt 42)); reflexivity.
Defined.

(** The placeholder left as the function-app name. *)
Lemma az_deploy_exits_1_when_unset_witness :
  exists trace complaint,
    Build.run (Build.az_deploy quiet_host "your-function-app-name" "my-rg")
      = (Build.SysExit 1, trace) /\
    Build.stderr_lines trace
      = [Build.RED ++ "❌ " ++ complaint ++ Build.ENDC] /\
    (complaint = "FUNCTION_APP_NAME not set" \/
     complaint = "RESOURCE_GROUP not set") /\
    forallb (fun e => negb (Build.is_step e)) trace = true.
Proof.
  apply (az_deploy_exits_1_when_unset
           quiet_host "your-function-app-name" "my-rg").
  right. left. reflexivity.
Defined.

End Witnesses.


(** * Further properties of the handlers *)

Section HandlerProperties.
Context {rt : PyRuntime}.
Import Logs.

(** The response of [chat_api], by cases on what [get_json] gives. *)
Lemma chat_api_cases (req : HttpRequest) (now : datetime) :
  result (chat_api req now) =
  inr match get_json req with
      | inl e =>
          if is_ValueError e
          then json_response (error_body "Invalid JSON format" now) 400
          else json_response (error_body "Internal server error" now) 500
      | inr (PDict items) => answer_to_dict now items
      | inr _ => json_response (error_body "Internal server error" now) 500
      end.
Proof.
  destruct (get_json req) as [e | v] eqn:Hbody.
  - rewrite chat_api_result, (chat_api_try_raise _ _ _ Hbody).
    destruct (is_ValueError e) eqn:He.
    + apply chat_api_except_value_error, He.
    + apply chat_api_except_other, He.
  - destruct v;
      try (rewrite chat_api_result;
           destruct (chat_api_try_not_dict _ now _ Hbody) as [text ->];
           [intros ?; discriminate |];
           apply chat_api_except_other; reflexivity).
    apply chat_api_dict, Hbody.
Qed.

(** X1.  Every response of [chat_api] and of [health_check] has the
    content type [application/json]. *)
Theorem responses_are_json (req : HttpRequest) (now : datetime) :
  (exists r, result (chat_api req now) = inr r /\
             mimetype r = "application/json") /\
  (exists r, result (health_check req now) = inr r /\
             mimetype r = "application/json").
Proof.
  split.
  - rewrite chat_api_cases. eexists. split; [reflexivity |].
    destruct (get_json req) as [e | v].
    + destruct (is_ValueError e); reflexivity.
    + destruct v; try reflexivity.
      unfold answer_to_dict.
      destruct (truthy (dict_get items "message" (PStr ""))); reflexivity.
  - eexists. split; reflexivity.
Qed.

(** X2.  The status of the response of [chat_api] tells what happened: it
    is 200 exactly when the body parsed to an object whose [message] is
    truthy, and 500 exactly when the parser raised something other than a
    [ValueError] or the body parsed to something other than an object. *)
Theorem chat_api_status_classification (req : HttpRequest) (now : datetime) :
  exists r,
    result (chat_api req now) = inr r /\
    (status_code r = 200 <->
     exists items,
       get_json req = inr (PDict items) /\
       truthy (dict_get items "message" (PStr "")) = true) /\
    (status_code r = 500 <->
     (exists e, get_json req = inl e /\ is_ValueError e = false) \/
     (exists v, get_json req = inr v /\ forall items, v <> PDict items)).
Proof.
  rewrite chat_api_cases. eexists. split; [reflexivity |].
  destruct (get_json req) as [e | v].
  - destruct (is_ValueError e) eqn:He; simpl; split.
    + split; [discriminate | intros [items [H _]]; discriminate H].
    + split; [discriminate |].
      intros [[e' [H He']] | [v [H _]]]; [| discriminate H].
      injection H as <-. congruence.
    + split; [discriminate | intros [items [H _]]; discriminate H].
    + split; [| reflexivity].
      intros _. left. exists e. split; [reflexivity | exact He].
  - assert (Hdict : forall items (P : Prop),
               (exists e, @inr exn pyval (PDict items) = inl e /\
                          is_ValueError e = false) \/
               (exists v, @inr exn pyval (PDict items) = inr v /\
                          forall items', v <> PDict items') -> P).
    { intros items P [[e [H _]] | [w [H Hv]]]; [discriminate H |].
      injection H as <-. exfalso. apply (Hv items). reflexivity. }
    destruct v; simpl;
      try (split;
           [ split; [discriminate | intros [? [H _]]; discriminate H]
           | split; [| reflexivity];
             intros _; right; eexists; split;
             [reflexivity | intros ?; discriminate] ]).
    unfold answer_to_dict.
    destruct (truthy (dict_get items "message" (PStr ""))) eqn:Ht;
      simpl; split.
    + split; [| reflexivity].
      intros _. exists items. split; [reflexivity | exact Ht].
    + split; [discriminate | apply Hdict].
    + split; [discriminate |].
      intros [items' [H Ht']]. injection H as <-. congruence.
    + split; [discriminate | apply Hdict].
Qed.

(** X3.  A [user_id] that is present is returned as it is, whatever it is:
    the default "anonymous" replaces an absent key only, not a null or an
    empty one, and a value that is not a string is not refused. *)
Theorem chat_api_echoes_user_id_verbatim
        (req : HttpRequest) (now : datetime)
        (items : list (string * pyval)) (v : pyval) :
  get_json req = inr (PDict items) ->
  truthy (dict_get items "message" (PStr "")) = true ->
  dict_lookup items "user_id" = Some v ->
  exists r,
    result (chat_api req now) = inr r /\
    status_code r = 200 /\
    body_field r "user_id" = Some v.
Proof.
  intros Hbody Hmsg Huser. rewrite chat_api_cases, Hbody.
  unfold answer_to_dict. rewrite Hmsg.
  eexists. split; [reflexivity |]. split; [reflexivity |].
  unfold dict_get. rewrite Huser. reflexivity.
Qed.

(** X4.  The response of [chat_api] is a function of the parsed body and of
    the clock: the method, the URL and the headers of the request, which are
    logged, have no part in it. *)
Theorem chat_api_reads_only_the_body
        (req req' : HttpRequest) (now : datetime) :
  get_json req = get_json req' ->
  result (chat_api req now) = result (chat_api req' now).
Proof. intros H. rewrite !chat_api_cases, H. reflexivity. Qed.

(** X5.  Of an object body, [chat_api] reads the fields [message] and
    [user_id] alone: two bodies that agree on these two get the same
    response, whatever other fields they hold. *)
Theorem chat_api_ignores_other_fields
        (req req' : HttpRequest) (now : datetime)
        (items items' : list (string * pyval)) :
  get_json req = inr (PDict items) ->
  get_json req' = inr (PDict items') ->
  dict_lookup items "message" = dict_lookup items' "message" ->
  dict_lookup items "user_id" = dict_lookup items' "user_id" ->
  result (chat_api req now) = result (chat_api req' now).
Proof.
  intros H H' Hm Hu. rewrite !chat_api_cases, H, H'.
  unfold answer_to_dict, dict_get. rewrite Hm, Hu. reflexivity.
Qed.

(** X6.  Every response of [chat_api] carries the [timestamp] of the clock
    in ISO format, and a response with status 200 has exactly the fields
    [status], [user_id], [message_received], [response] and [timestamp], in
    this order. *)
Theorem chat_api_response_shape (req : HttpRequest) (now : datetime) :
  exists r,
    result (chat_api req now) = inr r /\
    body_field r "timestamp" = Some (PStr (isoformat now)) /\
    (status_code r = 200 ->
     body_fields r = Some ["status"; "user_id"; "message_received";
                           "response"; "timestamp"]).
Proof.
  rewrite chat_api_cases. eexists. split; [reflexivity |].
  destruct (get_json req) as [e | v].
  - destruct (is_ValueError e); simpl; split;
      try reflexivity; intros H; discriminate H.
  - destruct v; simpl;
      try (split; [reflexivity | intros H; discriminate H]).
    unfold answer_to_dict.
    destruct (truthy (dict_get items "message" (PStr ""))); simpl; split;
      try reflexivity; intros H; discriminate H.
Qed.

(** X7.  [chat_api] only adds to the log, and the levels of what it adds
    follow the status: after a 200 all the new records are at level INFO,
    and a record with a traceback is logged exactly for a 500. *)
Theorem chat_api_log_levels
        (req : HttpRequest) (now : datetime) (log : list LogRecord) :
  exists r new,
    chat_api req now log = (inr r, (log ++ new)%list) /\
    (status_code r = 200 <-> forallb is_info new = true) /\
    (status_code r = 500 <-> existsb exc_info new = true).
Proof.
  run_handler. simpl.
  destruct (get_json req) as [e | v]; simpl.
  - destruct (is_ValueError e); simpl;
      rewrite <- !app_assoc; simpl; do 2 eexists;
      (split; [reflexivity |]);
      split; split; intros H; (discriminate H || reflexivity).
  - destruct v; simpl;
      try (rewrite <- !app_assoc; simpl; do 2 eexists;
           (split; [reflexivity |]);
           split; split; intros H; (discriminate H || reflexivity)).
    destruct (truthy (dict_get items "message" (PStr ""))); simpl;
      rewrite <- !app_assoc; simpl; do 2 eexists;
      (split; [reflexivity |]);
      split; split; intros H; (discriminate H || reflexivity).
Qed.

(** X8.  What the caller is not told is logged: when the [try] block
    raises [e], the last record of the log is at level ERROR and holds the
    text of [e], with a traceback unless [e] is a [ValueError]. *)
Theorem chat_api_logs_the_cause
        (req : HttpRequest) (now : datetime) (e : exn) :
  result (chat_api_try req now) = inl e ->
  exists earlier,
    snd (run (chat_api req now)) = (earlier ++ [error_record e])%list.
Proof.
  unfold error_record. run_handler. simpl.
  destruct (get_json req) as [e' | v]; simpl.
  - intros H. injection H as <-.
    destruct (is_ValueError e'); simpl;
      match goal with
      | |- exists _, ?a :: ?b :: ?c :: ?d :: [_] = _ => exists [a; b; c; d]
      end; reflexivity.
  - destruct v; simpl; intros H;
      try (injection H as <-; simpl;
           match goal with
           | |- exists _, ?a :: ?b :: ?c :: ?d :: ?f :: [_] = _ =>
               exists [a; b; c; d; f]
           end; reflexivity).
    destruct (truthy (dict_get items "message" (PStr "")));
      discriminate H.
Qed.

End HandlerProperties.
(** * Properties of the archive of [az_package] *)

Section Archive.
Import Package.

Lemma prefix_empty (s : string) : String.prefix "" s = true.
Proof. destruct s; reflexivity. Qed.

Lemma prefix_app (p s t : string) :
  String.prefix p s = true -> String.prefix p (s ++ t) = true.
Proof.
  revert p. induction s as [| c s IH]; intros p H.
  - destruct p; [apply prefix_empty | discriminate H].
  - destruct p as [| a p]; [reflexivity |].
    simpl in *. destruct (ascii_dec a c); [apply IH; exact H | discriminate H].
Qed.

Lemma str_in_cons (sub : string) (c : ascii) (s : string) :
  str_in sub (String c s) = (String.prefix sub (String c s) || str_in sub s)%bool.
Proof. reflexivity. Qed.

Lemma str_in_app_r (sub s t : string) :
  str_in sub s = true -> str_in sub (s ++ t) = true.
Proof.
  induction s as [| c s IH]; intros H.
  - destruct sub; [| discriminate H].
    destruct t; reflexivity.
  - change (String c s ++ t) with (String c (s ++ t)).
    rewrite str_in_cons in *. apply orb_true_iff in H. apply orb_true_iff.
    destruct H as [H | H].
    + left. apply (prefix_app sub (String c s) t H).
    + right. apply IH, H.
Qed.

Lemma str_in_app_l (sub s t : string) :
  str_in sub s = true -> str_in sub (t ++ s) = true.
Proof.
  intros H. induction t as [| c t IH]; [exact H |].
  change (String c t ++ s) with (String c (t ++ s)).
  rewrite str_in_cons, IH. apply orb_true_r.
Qed.

Lemma replace_char_app (old new : ascii) (s t : string) :
  replace_char old new (s ++ t) =
  replace_char old new s ++ replace_char old new t.
Proof. induction s as [| c s IH]; simpl; [| rewrite IH]; reflexivity. Qed.

Lemma should_exclude_app (before path after : string) :
  should_exclude path = true ->
  should_exclude (before ++ path ++ after) = true.
Proof.
  unfold should_exclude. intros H.
  apply existsb_exists in H. destruct H as [pattern [Hin Hp]].
  apply existsb_exists. exists pattern. split; [exact Hin |].
  rewrite !replace_char_app. apply str_in_app_l, str_in_app_r, Hp.
Qed.

Lemma append_empty_r (s : string) : s ++ "" = s.
Proof. induction s as [| c s IH]; simpl; [| rewrite IH]; reflexivity. Qed.

Lemma append_assoc (s t u : string) : (s ++ t) ++ u = s ++ t ++ u.
Proof. induction s as [| c s IH]; simpl; [| rewrite IH]; reflexivity. Qed.

(** A joined path ends with the name, and starts with the directory when the
    name is relative. *)
Lemma path_join_shape (a p : string) :
  (exists before, path_join a p = before ++ p) /\
  (relative p = true -> exists after, path_join a p = a ++ after).
Proof.
  unfold path_join, relative.
  destruct (String.prefix "/" p); simpl.
  - split; [exists ""; reflexivity | discriminate].
  - destruct (String.eqb a "" || ends_with_slash a)%bool.
    + split; [exists a | exists p]; reflexivity.
    + split; [exists (a ++ "/") | exists ("/" ++ p)];
        [rewrite append_assoc |]; reflexivity.
Qed.

Lemma excluded_prefix (dir after : string) :
  should_exclude dir = true -> should_exclude (dir ++ after) = true.
Proof. intros H. apply (should_exclude_app "" dir after H). Qed.

Lemma kept_below_excluded (root file : string) :
  should_exclude root = true ->
  relative file = true ->
  kept (root, file) = false.
Proof.
  intros Hroot Hfile. unfold kept.
  destruct (proj2 (path_join_shape root file) Hfile) as [after ->].
  rewrite (excluded_prefix _ _ Hroot). reflexivity.
Qed.

Lemma tree_nested_ind (P : tree -> Prop) :
  (forall dirs files,
      Forall (fun entry => P (snd entry)) dirs -> P (Node dirs files)) ->
  forall t, P t.
Proof.
  intros step. fix IH 1. intros [dirs files]. apply step.
  induction dirs as [| [d sub] rest IHrest]; constructor.
  - apply IH.
  - exact IHrest.
Qed.

Lemma zip_members_node (root : string) dirs files :
  zip_members root (Node dirs files) =
  (written_files root files ++
   flat_map (fun entry =>
               if should_exclude (path_join root (fst entry)) then []
               else zip_members (path_join root (fst entry)) (snd entry))
            dirs)%list.
Proof.
  simpl. f_equal.
  induction dirs as [| [d sub] rest IH]; simpl; [| rewrite IH]; reflexivity.
Qed.

Lemma all_files_node (root : string) dirs files :
  all_files root (Node dirs files) =
  (map (fun file => (root, file)) files ++
   flat_map (fun entry => all_files (path_join root (fst entry)) (snd entry))
            dirs)%list.
Proof.
  simpl. f_equal.
  induction dirs as [| [d sub] rest IH]; simpl; [| rewrite IH]; reflexivity.
Qed.

Lemma relative_names_node dirs files :
  relative_names (Node dirs files) =
  (forallb relative files &&
   forallb (fun entry => relative (fst entry) && relative_names (snd entry))
           dirs)%bool.
Proof.
  simpl. f_equal.
  induction dirs as [| [d sub] rest IH]; simpl; [| rewrite IH]; reflexivity.
Qed.

Lemma written_files_filter (root : string) (files : list string) :
  written_files root files =
  map entry_path (filter kept (map (fun file => (root, file)) files)).
Proof.
  induction files as [| file rest IH]; [reflexivity |].
  simpl.
  destruct (negb (should_exclude (path_join root file)) &&
            negb (String.eqb file "function-app.zip"))%bool;
    simpl; rewrite IH; reflexivity.
Qed.

(** Nothing below an excluded directory passes the test of line 276. *)
Lemma nothing_kept_below_excluded (t : tree) :
  forall root,
    should_exclude root = true ->
    relative_names t = true ->
    filter kept (all_files root t) = [].
Proof.
  induction t as [dirs files IH] using tree_nested_ind.
  intros root Hroot Hrel.
  rewrite relative_names_node in Hrel. apply andb_true_iff in Hrel.
  destruct Hrel as [Hfiles Hdirs].
  rewrite all_files_node, filter_app.
  assert (Hleft : filter kept (map (fun file => (root, file)) files) = []).
  { clear IH Hdirs. induction files as [| file rest IHf]; [reflexivity |].
    simpl in Hfiles. apply andb_true_iff in Hfiles.
    destruct Hfiles as [Hfile Hrest].
    cbn [map filter]. rewrite (kept_below_excluded _ _ Hroot Hfile).
    apply IHf, Hrest. }
  rewrite Hleft. simpl.
  induction dirs as [| [d sub] rest IHd]; [reflexivity |].
  simpl in Hdirs. apply andb_true_iff in Hdirs.
  destruct Hdirs as [Hd Hrest]. apply andb_true_iff in Hd.
  destruct Hd as [Hname Hsub].
  inversion IH as [| ? ? IHsub IHrest]; subst. simpl in IHsub.
  assert (Hbelow : should_exclude (path_join root d) = true).
  { destruct (proj2 (path_join_shape root d) Hname) as [after ->].
    apply excluded_prefix, Hroot. }
  simpl. rewrite filter_app.
  rewrite (IHsub _ Hbelow Hsub).
  simpl. apply IHd; assumption.
Qed.

(** X9.  What lies in an excluded directory is excluded: when
    [should_exclude] holds of a directory, it holds of the path of every
    entry of it. *)
Theorem excluded_directory_excludes_entries (dir name : string) :
  should_exclude dir = true ->
  relative name = true ->
  should_exclude (path_join dir name) = true.
Proof.
  intros Hdir Hname.
  destruct (proj2 (path_join_shape dir name) Hname) as [after ->].
  apply excluded_prefix, Hdir.
Qed.

(** X10.  A file or directory whose own name contains a pattern is excluded
    wherever it lies. *)
Theorem excluded_name_is_excluded_anywhere (dir name : string) :
  should_exclude name = true ->
  should_exclude (path_join dir name) = true.
Proof.
  intros Hname.
  destruct (path_join_shape dir name) as [[before ->] _].
  rewrite <- (append_empty_r name) at 1.
  apply (should_exclude_app before name "" Hname).
Qed.


(** X11.  Leaving the excluded directories out of the walk loses nothing:
    the files handed to [zipf.write] are, in the order of the walk, all the
    files of the tree that pass the test of line 276. *)
Theorem zip_members_is_filter (t : tree) :
  forall root,
    relative_names t = true ->
    zip_members root t = map entry_path (filter kept (all_files root t)).
Proof.
  induction t as [dirs files IH] using tree_nested_ind.
  intros root Hrel.
  rewrite relative_names_node in Hrel. apply andb_true_iff in Hrel.
  destruct Hrel as [_ Hdirs].
  rewrite zip_members_node, all_files_node, filter_app, map_app.
  rewrite written_files_filter. f_equal.
  induction dirs as [| [d sub] rest IHd]; [reflexivity |].
  simpl in Hdirs. apply andb_true_iff in Hdirs.
  destruct Hdirs as [Hd Hrest]. apply andb_true_iff in Hd.
  destruct Hd as [Hname Hsub].
  inversion IH as [| ? ? IHsub IHrest]; subst. simpl in IHsub.
  simpl. rewrite filter_app, map_app. rewrite <- (IHd IHrest Hrest).
  f_equal.
  destruct (should_exclude (path_join root d)) eqn:Hex.
  - rewrite (nothing_kept_below_excluded sub _ Hex Hsub). reflexivity.
  - apply IHsub, Hsub.
Qed.

(** X12.  Every path handed to [zipf.write] is the path of a file of the
    tree, matches no pattern, and is not a file named
    [function-app.zip]. *)
Theorem zip_members_sound (t : tree) :
  forall root path,
    In path (zip_members root t) ->
    exists dir file,
      In (dir, file) (all_files root t) /\
      path = path_join dir file /\
      should_exclude path = false /\
      file <> "function-app.zip".
Proof.
  induction t as [dirs files IH] using tree_nested_ind.
  intros root path Hin.
  rewrite zip_members_node in Hin. rewrite all_files_node.
  apply in_app_or in Hin. destruct Hin as [Hin | Hin].
  - rewrite written_files_filter in Hin.
    apply in_map_iff in Hin. destruct Hin as [[dir file] [Hpath Hin]].
    apply filter_In in Hin. destruct Hin as [Hin Hkept].
    exists dir, file. unfold entry_path in Hpath. simpl in Hpath, Hkept.
    apply andb_true_iff in Hkept. destruct Hkept as [Hex Hzip].
    apply negb_true_iff in Hex, Hzip. apply String.eqb_neq in Hzip.
    subst path. repeat split; auto. apply in_or_app. left. exact Hin.
  - apply in_flat_map in Hin. destruct Hin as [[d sub] [Hentry Hin]].
    simpl in Hin.
    destruct (should_exclude (path_join root d)); [contradiction |].
    rewrite Forall_forall in IH.
    destruct (IH _ Hentry _ _ Hin) as [dir [file [Hall Hrest]]].
    exists dir, file. split; [| exact Hrest].
    apply in_or_app. right. apply in_flat_map.
    exists (d, sub). split; [exact Hentry | exact Hall].
Qed.


Lemma no_char_cons (c a : ascii) (p : string) :
  str_in (String c "") (String a p) = false ->
  a <> c /\ str_in (String c "") p = false.
Proof.
  rewrite str_in_cons. intros H. apply orb_false_iff in H.
  destruct H as [Hhead Htail]. split; [| exact Htail].
  intros ->. simpl in Hhead.
  destruct (ascii_dec c c) as [_ | N]; [| apply N; reflexivity].
  rewrite prefix_empty in Hhead. discriminate Hhead.
Qed.

Lemma prefix_replace_char (old new : ascii) (s : string) :
  forall pattern,
    str_in (String old "") pattern = false ->
    str_in (String new "") pattern = false ->
    String.prefix pattern (replace_char old new s) = String.prefix pattern s.
Proof.
  induction s as [| d s IH]; intros pattern Hold Hnew; [reflexivity |].
  destruct pattern as [| a p]; [reflexivity |].
  apply no_char_cons in Hold, Hnew.
  destruct Hold as [Haold Hold], Hnew as [Hanew Hnew].
  simpl. destruct (Ascii.eqb_spec d old) as [-> | Hd].
  - destruct (ascii_dec a new); [contradiction |].
    destruct (ascii_dec a old); [contradiction | reflexivity].
  - destruct (ascii_dec a d); [apply IH; assumption | reflexivity].
Qed.

Lemma str_in_replace_char (old new : ascii) (pattern s : string) :
  str_in (String old "") pattern = false ->
  str_in (String new "") pattern = false ->
  str_in pattern (replace_char old new s) = str_in pattern s.
Proof.
  intros Hold Hnew. induction s as [| d s IH].
  - reflexivity.
  - change (replace_char old new (String d s))
      with (String (if Ascii.eqb d old then new else d)
                   (replace_char old new s)).
    rewrite !str_in_cons, IH. f_equal.
    apply (prefix_replace_char old new (String d s) pattern Hold Hnew).
Qed.

(** X13.  No pattern holds a slash or a backslash, so turning the backslashes
    of the path into slashes never changes the verdict: a path is excluded
    exactly when a pattern occurs in it as it is written. *)
Theorem should_exclude_ignores_separators (file_path : string) :
  should_exclude file_path =
  existsb (fun pattern => str_in pattern file_path) exclude_patterns.
Proof.
  unfold should_exclude, exclude_patterns. cbn [existsb].
  rewrite !(str_in_replace_char backslash slash) by reflexivity.
  reflexivity.
Qed.

End Archive.

(** * Properties of the tasks *)

Ltac run_task :=
  unfold Build.run, Tasks.run_all, Tasks.setup, Tasks.test, Tasks.coverage,
    Tasks.lint, Tasks.format_code, Tasks.func_start, Tasks.run_command_check,
    Build.run_command, Build.print_header, Build.print_info,
    Build.print_success, Build.print_error, Build.bind, Build.perform,
    Build.sys_exit, Build.ret;
  cbn [app fst snd negb orb andb].

Ltac split_codes :=
  repeat match goal with
         | |- context [Z.eqb ?a 0] =>
             let E := fresh "E" in
             destruct (Z.eqb a 0) eqn:E; cbn [app fst snd negb orb andb]
         end.

(** Closes a goal [In line lines <-> outcome = Returned tt] on computed
    lines. *)
Ltac decide_line :=
  vm_compute; split; intros H;
  [ solve [ repeat (destruct H as [H | H]; [try discriminate H |]);
            try contradiction; try reflexivity ]
  | solve [ discriminate H | auto 20 ] ].

Section TaskProperties.
Import Tasks.
Variables (host : Build.Host) (plat : Platform).

Lemma first_failure_nonzero (codes : list Z) (code : Z) :
  first_failure codes = Build.SysExit code -> code <> 0.
Proof.
  induction codes as [| c rest IH]; simpl; [discriminate |].
  destruct (c =? 0) eqn:E; [exact IH |].
  intros H. injection H as <-. apply Z.eqb_neq, E.
Qed.

(** X14.  [lint] ends as its two checked commands decide: the return code of
    the full [flake8] run, made without [check], has no part in it.  When
    the first [flake8] run fails nothing else is run. *)
Theorem lint_ignores_full_flake8 :
  fst (Build.run (lint host plat)) =
    first_failure [Build.returncode host (flake8_critical_cmd plat);
                   Build.returncode host (mypy_cmd plat)] /\
  subprocesses (snd (Build.run (lint host plat))) =
    if Build.returncode host (flake8_critical_cmd plat) =? 0
    then [flake8_critical_cmd plat; flake8_all_cmd plat; mypy_cmd plat]
    else [flake8_critical_cmd plat].
Proof.
  run_task. cbn [first_failure]. split_codes; split; reflexivity.
Qed.

(** X15.  [run_all] formats, lints and tests in this order and stops at the
    first checked command that fails, with its return code.  The tests are
    run exactly when the formatting and both checked lint commands
    succeeded. *)
Theorem run_all_stops_at_first_failure :
  fst (Build.run (run_all host plat)) =
    first_failure [Build.returncode host (black_cmd plat);
                   Build.returncode host (flake8_critical_cmd plat);
                   Build.returncode host (mypy_cmd plat);
                   Build.returncode host (pytest_cmd plat)] /\
  (In (pytest_cmd plat) (subprocesses (snd (Build.run (run_all host plat))))
   <->
   Build.returncode host (black_cmd plat) = 0 /\
   Build.returncode host (flake8_critical_cmd plat) = 0 /\
   Build.returncode host (mypy_cmd plat) = 0).
Proof.
  run_task. cbn [first_failure].
  destruct (Build.returncode host (black_cmd plat) =? 0) eqn:E1;
    cbn [app fst snd negb orb andb].
  2:{ split; [reflexivity |]. apply Z.eqb_neq in E1. cbn.
      split; [| tauto].
      intros [H | []]. unfold black_cmd, pytest_cmd in H. discriminate H. }
  destruct (Build.returncode host (flake8_critical_cmd plat) =? 0) eqn:E2;
    cbn [app fst snd negb orb andb].
  2:{ split; [reflexivity |]. apply Z.eqb_neq in E2. cbn.
      split; [| tauto].
      intros [H | [H | []]]; unfold black_cmd, pytest_cmd, flake8_critical_cmd in H;
        discriminate H. }
  destruct (Build.returncode host (mypy_cmd plat) =? 0) eqn:E3;
    cbn [app fst snd negb orb andb].
  2:{ split; [reflexivity |]. apply Z.eqb_neq in E3. cbn.
      split; [| tauto].
      intros [H | [H | [H | [H | []]]]];
        unfold black_cmd, pytest_cmd, flake8_critical_cmd, flake8_all_cmd,
          mypy_cmd in H; discriminate H. }
  apply Z.eqb_eq in E1, E2, E3.
  destruct (Build.returncode host (pytest_cmd plat) =? 0) eqn:E4;
    cbn [app fst snd negb orb andb];
    (split; [reflexivity |]); cbn; (split; [auto | intros _; auto 10]).
Qed.


(** X16.  [setup] creates the virtual environment, upgrades [pip] and
    installs the dependencies in this order, and stops at the first of the
    three commands that fails, with its return code: nothing is installed
    when the environment could not be created. *)
Theorem setup_stops_at_first_failure :
  fst (Build.run (setup host plat)) =
    first_failure [Build.returncode host (venv_cmd plat);
                   Build.returncode host (pip_upgrade_cmd plat);
                   Build.returncode host (pip_install_dev_cmd plat)] /\
  subprocesses (snd (Build.run (setup host plat))) =
    if Build.returncode host (venv_cmd plat) =? 0 then
      if Build.returncode host (pip_upgrade_cmd plat) =? 0 then
        [venv_cmd plat; pip_upgrade_cmd plat; pip_install_dev_cmd plat]
      else [venv_cmd plat; pip_upgrade_cmd plat]
    else [venv_cmd plat].
Proof.
  run_task. cbn [first_failure].
  split_codes; try destruct (win32 plat); split; reflexivity.
Qed.

Lemma test_success_line :
  In (success_line "Tests passed!")
     (stdout_lines (snd (Build.run (test host plat))))
  <-> fst (Build.run (test host plat)) = Build.Returned tt.
Proof. run_task. split_codes; decide_line. Qed.

Lemma coverage_success_line :
  In (success_line "Coverage report generated in htmlcov/index.html")
     (stdout_lines (snd (Build.run (coverage host plat))))
  <-> fst (Build.run (coverage host plat)) = Build.Returned tt.
Proof. run_task. split_codes; decide_line. Qed.

Lemma format_code_success_line :
  In (success_line "Code formatted!")
     (stdout_lines (snd (Build.run (format_code host plat))))
  <-> fst (Build.run (format_code host plat)) = Build.Returned tt.
Proof. run_task. split_codes; decide_line. Qed.

Lemma lint_success_line :
  In (success_line "Linting checks passed!")
     (stdout_lines (snd (Build.run (lint host plat))))
  <-> fst (Build.run (lint host plat)) = Build.Returned tt.
Proof. run_task. split_codes; decide_line. Qed.

Lemma setup_success_line :
  In (success_line "Setup complete!")
     (stdout_lines (snd (Build.run (setup host plat))))
  <-> fst (Build.run (setup host plat)) = Build.Returned tt.
Proof.
  run_task. split_codes; destruct (win32 plat); decide_line.
Qed.

Lemma run_all_success_line :
  In (success_line "All checks passed!")
     (stdout_lines (snd (Build.run (run_all host plat))))
  <-> fst (Build.run (run_all host plat)) = Build.Returned tt.
Proof. run_task. split_codes; decide_line. Qed.

(** X17.  A task prints its line of success exactly when it returns: when a
    checked command fails, none of "Tests passed!", "Linting checks
    passed!", "All checks passed!" and the like is printed. *)
Theorem success_line_iff_returned :
  forall task message,
    In (task, message)
       [(test host plat, "Tests passed!");
        (coverage host plat,
         "Coverage report generated in htmlcov/index.html");
        (format_code host plat, "Code formatted!");
        (lint host plat, "Linting checks passed!");
        (setup host plat, "Setup complete!");
        (run_all host plat, "All checks passed!")] ->
    (In (success_line message) (stdout_lines (snd (Build.run task)))
     <-> fst (Build.run task) = Build.Returned tt).
Proof.
  intros task message Hin. simpl in Hin.
  repeat (destruct Hin as [Heq | Hin];
          [injection Heq as <- <- |]); try contradiction.
  - apply test_success_line.
  - apply coverage_success_line.
  - apply format_code_success_line.
  - apply lint_success_line.
  - apply setup_success_line.
  - apply run_all_success_line.
Qed.

(** X18.  When one of the tasks that run commands ends the process, the exit
    code is the return code of the command that failed, it is not zero, and
    the one line on [stderr] names it. *)
Theorem failing_task_exit_code :
  forall task,
    In task [setup host plat; test host plat; coverage host plat;
             lint host plat; format_code host plat; func_start host;
             run_all host plat] ->
    forall code,
      fst (Build.run task) = Build.SysExit code ->
      code <> 0 /\
      Build.stderr_lines (snd (Build.run task)) = [failure_line code] /\
      exists cmd,
        last (subprocesses (snd (Build.run task))) [] = cmd /\
        Build.returncode host cmd = code.
Proof.
  intros task Hin code. simpl in Hin.
  repeat (destruct Hin as [<- | Hin]); try contradiction;
    run_task; split_codes; try destruct (win32 plat);
    intros H; try discriminate H; injection H as <-;
    (split; [apply Z.eqb_neq; assumption |]);
    (split; [reflexivity |]); eexists; (split; [reflexivity |]); reflexivity.
Qed.

End TaskProperties.

(** * Properties of the deployment and of [main] *)

Ltac run_deploy :=
  unfold Build.run, Build.az_deploy, Build.az_package, Build.run_command,
    Build.print_header, Build.print_info, Build.print_success,
    Build.print_error, Build.bind, Build.perform, Build.sys_exit, Build.ret,
    Tasks.names_set;
  cbn [app fst snd negb orb andb].

Section DeployProperties.
Import Tasks.
Variable host : Build.Host.

(** X19.  [az_deploy] returns, and prints "Deployment complete!", exactly
    when the names pass the checks, the packaging returns and the [az]
    command returns zero. *)
Theorem deployment_complete_iff (fa rg : string) :
  (fst (Build.run (Build.az_deploy host fa rg)) = Build.Returned tt
   <->
   names_set fa rg = true /\
   Build.az_package_outcome host = Build.Returned tt /\
   Build.returncode host (az_deploy_cmd fa rg) = 0) /\
  (In (success_line "Deployment complete!")
      (stdout_lines (snd (Build.run (Build.az_deploy host fa rg))))
   <->
   fst (Build.run (Build.az_deploy host fa rg)) = Build.Returned tt).
Proof.
  run_deploy. fold (az_deploy_cmd fa rg).
  destruct (String.eqb fa ""); cbn [app fst snd negb orb andb];
    [split; [split; [discriminate | intros [H _]; discriminate H]
            | decide_line] |].
  destruct (String.eqb fa "your-function-app-name");
    cbn [app fst snd negb orb andb];
    [split; [split; [discriminate | intros [H _]; discriminate H]
            | decide_line] |].
  destruct (String.eqb rg ""); cbn [app fst snd negb orb andb];
    [split; [split; [discriminate | intros [H _]; discriminate H]
            | decide_line] |].
  destruct (String.eqb rg "your-resource-group");
    cbn [app fst snd negb orb andb];
    [split; [split; [discriminate | intros [H _]; discriminate H]
            | decide_line] |].
  destruct (Build.az_package_outcome host) as [[] | code];
    cbn [app fst snd negb orb andb].
  - destruct (Build.returncode host (az_deploy_cmd fa rg) =? 0) eqn:E;
      cbn [app fst snd negb orb andb].
    + apply Z.eqb_eq in E. split; [tauto | decide_line].
    + apply Z.eqb_neq in E.
      split; [split; [discriminate | tauto] | decide_line].
  - split; [split; [discriminate | intros [_ [H _]]; discriminate H]
           | decide_line].
Qed.

(** X20.  The only subprocess [az_deploy] ever starts is the [az] command
    with the two names it was given, and it starts it only when the names
    passed the checks and the packaging returned; the packaging is begun
    exactly when the names passed the checks. *)
Theorem az_deploy_runs_only_the_deployment (fa rg : string) :
  subprocesses (snd (Build.run (Build.az_deploy host fa rg))) =
    (if names_set fa rg then
       match Build.az_package_outcome host with
       | Build.Returned _ => [az_deploy_cmd fa rg]
       | Build.SysExit _ => []
       end
     else []) /\
  (In Build.Package (snd (Build.run (Build.az_deploy host fa rg)))
   <-> names_set fa rg = true).
Proof.
  run_deploy. fold (az_deploy_cmd fa rg).
  destruct (String.eqb fa ""); cbn [app fst snd negb orb andb];
    [split; [reflexivity | cbn; split; [intuition discriminate | discriminate]] |].
  destruct (String.eqb fa "your-function-app-name");
    cbn [app fst snd negb orb andb];
    [split; [reflexivity | cbn; split; [intuition discriminate | discriminate]] |].
  destruct (String.eqb rg ""); cbn [app fst snd negb orb andb];
    [split; [reflexivity | cbn; split; [intuition discriminate | discriminate]] |].
  destruct (String.eqb rg "your-resource-group");
    cbn [app fst snd negb orb andb];
    [split; [reflexivity | cbn; split; [intuition discriminate | discriminate]] |].
  destruct (Build.az_package_outcome host) as [[] | code];
    cbn [app fst snd negb orb andb].
  - destruct (Build.returncode host (az_deploy_cmd fa rg) =? 0);
      cbn [app fst snd negb orb andb];
      (split; [reflexivity | cbn; split; [reflexivity | auto 10]]).
  - split; [reflexivity | cbn; split; [reflexivity | auto 10]].
Qed.

(** X21.  When [az_deploy] ends the process, the exit code is 1 for names
    that do not pass the checks, the exit code of the packaging when that
    ended the process, and otherwise the return code of the [az] command,
    which then is not zero. *)
Theorem az_deploy_exit_code (fa rg : string) (code : Z) :
  fst (Build.run (Build.az_deploy host fa rg)) = Build.SysExit code ->
  (names_set fa rg = false /\ code = 1) \/
  (names_set fa rg = true /\
   Build.az_package_outcome host = Build.SysExit code) \/
  (names_set fa rg = true /\
   Build.az_package_outcome host = Build.Returned tt /\
   Build.returncode host (az_deploy_cmd fa rg) = code /\
   code <> 0).
Proof.
  run_deploy. fold (az_deploy_cmd fa rg).
  destruct (String.eqb fa ""); cbn [app fst snd negb orb andb];
    [intros H; injection H as <-; left; split; reflexivity |].
  destruct (String.eqb fa "your-function-app-name");
    cbn [app fst snd negb orb andb];
    [intros H; injection H as <-; left; split; reflexivity |].
  destruct (String.eqb rg ""); cbn [app fst snd negb orb andb];
    [intros H; injection H as <-; left; split; reflexivity |].
  destruct (String.eqb rg "your-resource-group");
    cbn [app fst snd negb orb andb];
    [intros H; injection H as <-; left; split; reflexivity |].
  destruct (Build.az_package_outcome host) as [[] | code'];
    cbn [app fst snd negb orb andb].
  - destruct (Build.returncode host (az_deploy_cmd fa rg) =? 0) eqn:E;
      cbn [app fst snd negb orb andb]; intros H; [discriminate H |].
    injection H as <-. apply Z.eqb_neq in E.
    right. right. repeat split; auto.
  - intros H. injection H as <-. right. left. split; reflexivity.
Qed.

(** X22.  Options given on the command line and not empty are the names that
    reach [az_deploy], whatever the environment holds. *)
Theorem main_az_deploy_options_win (args : Build.Args) (fa rg : string) :
  Build.function_app args = Some fa -> fa <> "" ->
  Build.resource_group args = Some rg -> rg <> "" ->
  Build.main_az_deploy host args = Build.az_deploy host fa rg.
Proof.
  intros Hfa Nfa Hrg Nrg. unfold Build.main_az_deploy, Build.or_environ.
  rewrite Hfa, Hrg.
  apply String.eqb_neq in Nfa, Nrg. rewrite Nfa, Nrg. reflexivity.
Qed.

End DeployProperties.

Section MainProperties.
Import Tasks.
Variables (host : Build.Host) (plat : Platform) (others : OtherTasks).

Lemma lookup_command_none (table : list (string * Build.Proc unit))
      (name : string) :
  ~ In name (map fst table) -> lookup_command table name = None.
Proof.
  induction table as [| [k task] rest IH]; intros Hnot; [reflexivity |].
  simpl. destruct (String.eqb_spec k name) as [-> | _].
  - exfalso. apply Hnot. left. reflexivity.
  - apply IH. intros Hin. apply Hnot. right. exact Hin.
Qed.

(** X23.  With the flag [--help], with no command or with an empty command,
    [main] prints the help and returns: it runs no task, not even when the
    command is [az-deploy]. *)
Theorem main_shows_help (args : MainArgs) :
  help args = true \/ command args = None \/ command args = Some "" ->
  Build.run (main host plat others args) =
  (Build.Returned tt, [Build.Print Build.Stdout help_text]).
Proof.
  unfold main. intros [H | [H | H]]; rewrite H;
    cbn [String.eqb]; rewrite ?orb_true_r; reflexivity.
Qed.

(** X24.  A command that is neither [az-deploy] nor a key of [commands]
    makes [main] name it on [stderr], print the help and end the process
    with exit code 1, without running any task. *)
Theorem main_rejects_unknown_command (args : MainArgs) (name : string) :
  help args = false ->
  command args = Some name ->
  name <> "" ->
  ~ In name ("az-deploy" :: map fst (commands host plat others)) ->
  Build.run (main host plat others args) =
  (Build.SysExit 1,
   [Build.Print Build.Stderr
      (Build.RED ++ "❌ " ++ "Unknown command: " ++ name ++ Build.ENDC);
    Build.Print Build.Stdout help_text]).
Proof.
  intros Hhelp Hcmd Hname Hnot. unfold main. rewrite Hhelp, Hcmd.
  apply String.eqb_neq in Hname. rewrite Hname. cbn [orb].
  destruct (String.eqb_spec name "az-deploy") as [-> | _].
  - exfalso. apply Hnot. left. reflexivity.
  - rewrite lookup_command_none
      by (intros Hin; apply Hnot; right; exact Hin).
    reflexivity.
Qed.

(** X25.  Every key of [commands] is dispatched to its own task: the
    dictionary has no repeated key, [az-deploy] is not one of them, and a
    key given as the command makes [main] run the task bound to it. *)
Theorem main_dispatches_known_command (args : MainArgs) (name : string)
        (task : Build.Proc unit) :
  help args = false ->
  command args = Some name ->
  In (name, task) (commands host plat others) ->
  NoDup (map fst (commands host plat others)) /\
  main host plat others args = task.
Proof.
  intros Hhelp Hcmd Hin.
  assert (Hnodup : NoDup (map fst (commands host plat others))).
  { cbn. repeat constructor; cbn; intuition discriminate. }
  split; [exact Hnodup |].
  unfold main. rewrite Hhelp, Hcmd.
  cbn in Hin.
  repeat (destruct Hin as [Heq | Hin]; [injection Heq as <- <-; reflexivity |]).
  contradiction.
Qed.

End MainProperties.

(** * The further properties applied to concrete inputs *)

Section MoreWitnesses.
Import Sample Package Tasks SampleTasks.
#[local] Existing Instance ascii_runtime.

(** A [user_id] that is null. *)
Lemma chat_api_echoes_user_id_verbatim_witness :
  let items := [("message", PStr "hi"); ("user_id", PNone)] in
  dict_lookup items "user_id" = Some PNone /\
  exists r,
    result (chat_api (post_chat (inr (PDict items))) noon) = inr r /\
    status_code r = 200 /\
    body_field r "user_id" = Some PNone.
Proof.
  split; [reflexivity |].
  apply (chat_api_echoes_user_id_verbatim
           (post_chat (inr (PDict [("message", PStr "hi");
                                   ("user_id", PNone)])))
           noon [("message", PStr "hi"); ("user_id", PNone)] PNone);
    reflexivity.
Defined.

(** The same body sent with another method, to another URL. *)
Lemma chat_api_reads_only_the_body_witness :
  let parsed := inr (PDict [("message", PStr "hi")]) in
  let req' := {| method := "PUT"; url := "/elsewhere";
                 headers := [("X-Trace", "1")]; get_json := parsed |} in
  result (chat_api (post_chat parsed) noon) = result (chat_api req' noon).
Proof.
  apply (chat_api_reads_only_the_body
           (post_chat (inr (PDict [("message", PStr "hi")])))
           {| method := "PUT"; url := "/elsewhere";
              headers := [("X-Trace", "1")];
              get_json := inr (PDict [("message", PStr "hi")]) |}
           noon).
  reflexivity.
Defined.

(** A body with a field the handler does not know. *)
Lemma chat_api_ignores_other_fields_witness :
  result (chat_api (post_chat (inr (PDict [("message", PStr "hi")]))) noon) =
  result (chat_api
            (post_chat (inr (PDict [("debug", PBool true);
                                    ("message", PStr "hi")])))
            noon).
Proof.
  apply (chat_api_ignores_other_fields
           (post_chat (inr (PDict [("message", PStr "hi")])))
           (post_chat (inr (PDict [("debug", PBool true);
                                   ("message", PStr "hi")])))
           noon
           [("message", PStr "hi")]
           [("debug", PBool true); ("message", PStr "hi")]);
    reflexivity.
Defined.

(** A body that is a bare number. *)
Lemma chat_api_logs_the_cause_witness :
  let req := post_chat (inr (PInt 7)) in
  let e := Exn AttributeError "'int' object has no attribute 'get'" in
  result (chat_api_try req noon) = inl e /\
  exists earlier,
    snd (run (chat_api req noon)) = (earlier ++ [Logs.error_record e])%list.
Proof.
  split; [reflexivity |].
  apply (chat_api_logs_the_cause
           (post_chat (inr (PInt 7))) noon
           (Exn AttributeError "'int' object has no attribute 'get'")).
  reflexivity.
Defined.

(** The test file in the directory of the tests. *)
Lemma excluded_directory_excludes_entries_witness :
  should_exclude "./tests" = true /\
  should_exclude (path_join "./tests" "test_chat_api.py") = true.
Proof.
  split; [reflexivity |].
  apply (excluded_directory_excludes_entries "./tests" "test_chat_api.py");
    reflexivity.
Defined.

(** A Markdown file in a directory that is kept. *)
Lemma excluded_name_is_excluded_anywhere_witness :
  should_exclude "./docs" = false /\
  should_exclude (path_join "./docs" "notes.md") = true.
Proof.
  split; [reflexivity |].
  apply (excluded_name_is_excluded_anywhere "./docs" "notes.md").
  reflexivity.
Defined.

Lemma zip_members_is_filter_witness :
  relative_names checkout = true /\
  zip_members "." checkout =
  map entry_path (filter kept (all_files "." checkout)).
Proof.
  split; [reflexivity |].
  apply (zip_members_is_filter checkout "."). reflexivity.
Defined.

Lemma zip_members_sound_witness :
  exists dir file,
    In (dir, file) (all_files "." checkout) /\
    "./docs/api.txt" = path_join dir file /\
    should_exclude "./docs/api.txt" = false /\
    file <> "function-app.zip".
Proof.
  apply (zip_members_sound checkout "." "./docs/api.txt").
  vm_compute. do 4 right. left. reflexivity.
Defined.

(** The tests, when they pass. *)
Lemma success_line_iff_returned_witness :
  In (success_line "Tests passed!")
     (stdout_lines (snd (Build.run (test quiet_host posix))))
  <-> fst (Build.run (test quiet_host posix)) = Build.Returned tt.
Proof.
  apply (success_line_iff_returned quiet_host posix
           (test quiet_host posix) "Tests passed!").
  left. reflexivity.
Defined.

(** The tests, when [pytest] returns 2. *)
Lemma failing_task_exit_code_witness :
  fst (Build.run (test failing_host posix)) = Build.SysExit 2 /\
  2 <> 0 /\
  Build.stderr_lines (snd (Build.run (test failing_host posix)))
    = [failure_line 2] /\
  exists cmd,
    last (subprocesses (snd (Build.run (test failing_host posix)))) [] = cmd /\
    Build.returncode failing_host cmd = 2.
Proof.
  split; [reflexivity |].
  apply (failing_task_exit_code failing_host posix (test failing_host posix));
    [right; left; reflexivity | reflexivity].
Defined.

(** A deployment whose [az] command returns 2. *)
Lemma az_deploy_exit_code_witness :
  fst (Build.run (Build.az_deploy failing_host "my-app" "my-rg"))
    = Build.SysExit 2 /\
  ((names_set "my-app" "my-rg" = false /\ 2 = 1) \/
   (names_set "my-app" "my-rg" = true /\
    Build.az_package_outcome failing_host = Build.SysExit 2) \/
   (names_set "my-app" "my-rg" = true /\
    Build.az_package_outcome failing_host = Build.Returned tt /\
    Build.returncode failing_host (az_deploy_cmd "my-app" "my-rg") = 2 /\
    2 <> 0)).
Proof.
  split; [reflexivity |].
  apply (az_deploy_exit_code failing_host "my-app" "my-rg" 2). reflexivity.
Defined.

(** Both options given, and an environment that names another app. *)
Lemma main_az_deploy_options_win_witness :
  let host := {| Build.environ := fun _ => Some "from-the-environment";
                 Build.returncode := fun _ => 0;
                 Build.az_package_outcome := Build.Returned tt |} in
  let args := {| Build.function_app := Some "my-app";
                 Build.resource_group := Some "my-rg" |} in
  Build.main_az_deploy host args = Build.az_deploy host "my-app" "my-rg".
Proof.
  apply (main_az_deploy_options_win
           {| Build.environ := fun _ => Some "from-the-environment";
              Build.returncode := fun _ => 0;
              Build.az_package_outcome := Build.Returned tt |}
           {| Build.function_app := Some "my-app";
              Build.resource_group := Some "my-rg" |}
           "my-app" "my-rg");
    (reflexivity || discriminate).
Defined.

(** [python build.py az-deploy --help]. *)
Lemma main_shows_help_witness :
  let args := {| command := Some "az-deploy"; help := true;
                 options := no_options |} in
  Build.run (main quiet_host posix idle_tasks args) =
  (Build.Returned tt, [Build.Print Build.Stdout help_text]).
Proof.
  apply (main_shows_help quiet_host posix idle_tasks
           {| command := Some "az-deploy"; help := true;
              options := no_options |}).
  left. reflexivity.
Defined.

(** [python build.py deploy]. *)
Lemma main_rejects_unknown_command_witness :
  let args := {| command := Some "deploy"; help := false;
                 options := no_options |} in
  Build.run (main quiet_host posix idle_tasks args) =
  (Build.SysExit 1,
   [Build.Print Build.Stderr
      (Build.RED ++ "❌ " ++ "Unknown command: " ++ "deploy" ++ Build.ENDC);
    Build.Print Build.Stdout help_text]).
Proof.
  apply (main_rejects_unknown_command quiet_host posix idle_tasks
           {| command := Some "deploy"; help := false;
              options := no_options |}
           "deploy");
    [reflexivity | reflexivity | discriminate |].
  simpl. intuition discriminate.
Defined.

(** [python build.py lint]. *)
Lemma main_dispatches_known_command_witness :
  let args := {| command := Some "lint"; help := false;
                 options := no_options |} in
  NoDup (map fst (commands quiet_host posix idle_tasks)) /\
  main quiet_host posix idle_tasks args = lint quiet_host posix.
Proof.
  apply (main_dispatches_known_command quiet_host posix idle_tasks
           {| command := Some "lint"; help := false; options := no_options |}
           "lint" (lint quiet_host posix));
    [reflexivity | reflexivity |].
  simpl. do 4 right. left. reflexivity.
Defined.

End MoreWitnesses.
